(** * Instructor: the fine-tuning harness of main.py

    A shallow embedding of [Instructor.__init__], [Instructor._train],
    [Instructor._test] and [Instructor.run].

    Numbers.  Python floats (losses, accuracies, learning rates) are
    embedded as exact rationals [Q]; counters (sample counts, step
    counts, epoch indices) are [nat].  Rounding of the binary64
    operations is therefore not part of the model, the order of the
    operations and of the comparisons is.

    Effects.  The model, the optimizer and the scheduler are mutable
    objects shared by [_train], [_test] and [run]; they live in a single
    [World], threaded by a state-and-exception monad.  Everything the
    program does to the outside (logging, loading, plotting, saving) is
    appended to the world's [trace].

    What is not under src/ (model.py, data.py, config.py) and what belongs
    to torch / transformers is taken as a section variable. *)

From Stdlib Require Import List String QArith Lia Lqa Bool Arith.
Import ListNotations.
Close Scope Q_scope.
Open Scope string_scope.
Open Scope list_scope.

Module Instructor.

(** ** Values *)

(** Logits of one batch: one row of class scores per example. *)
Definition Logits := list (list Q).

(** Integer class targets of one batch. *)
Definition Targets := list nat.

(** The exceptions main.py can end with. *)
Inductive Exception :=
| ValueError (msg : string)
| ZeroDivisionError.

Inductive Result (A : Type) :=
| Ok (a : A)
| Raise (e : Exception).
Arguments Ok {A} a.
Arguments Raise {A} e.

(** The two classifier heads [__init__] chooses between. *)
Inductive Head := FNN | LSTM.

(** The command-line namespace [args] (config.py builds it). *)
Record Args := mkArgs {
  model_name : string;
  method_name : string;
  num_classes : nat;
  dataset : string;
  data_dir : string;
  train_batch_size : nat;
  test_batch_size : nat;
  num_epoch : nat;
  lr : Q;
  decay : Q;
  eps : Q;
  device_type : string;
  device_index : nat;
  backend : bool;
  log_name : string
}.

(** What [self.logger.info] is called with; the format strings are kept
    as constructors, their arguments as fields. *)
Inductive LogLine :=
| LogCreating (name : string)          (* '> creating model {}' *)
| LogCuda (index : nat)                (* '> cuda memory allocated: {}' *)
| LogArgs (a : Args)                   (* _print_args: header and one line per argument *)
| LogProgress (done total : nat)       (* '{}/{} - {:.2f}%' *)
| LogTrain (loss acc : Q)              (* '[train] loss: {:.4f}, acc: {:.2f}' *)
| LogTest (loss acc : Q)               (* '[test] loss: {:.4f}, acc: {:.2f}' *)
| LogBest (loss acc : Q)               (* 'best loss: {:.4f}, best acc: {:.2f}' *)
| LogSaved (name : string).            (* 'log saved: {}' *)

(** Calls that leave the program, in the order they are made.
    [EvAccumulate] marks lines 59-61 / 76-78 (the three additions to the
    running totals) and carries the totals after them. *)
Inductive Event :=
| EvLog (l : LogLine)
| EvFromPretrained (checkpoint : string)
| EvBuildModel (h : Head) (classes : nat)
| EvModelTo (device : string)
| EvLoadData
| EvMakeOptimizer (lr decay eps : Q)
| EvMakeScheduler (warmup : Q) (total : nat)
| EvModelTrain
| EvModelEval
| EvNoGradEnter
| EvNoGradExit
| EvToDevice
| EvForward (training grad : bool) (out : Logits)
| EvCriterion (loss : Q)
| EvZeroGrad
| EvBackward
| EvOptimizerStep (lr : Q)
| EvSchedulerStep (step : nat)
| EvAccumulate (loss_sum : Q) (n_correct n : nat)
| EvPlot (xs : list nat) (ys : list Q)
| EvYLabel (s : string)
| EvXLabel (s : string)
| EvSaveFig (file : string)
| EvTorchSave (file : string)
| EvShow.

(** The kind of an event, its payload forgotten. *)
Inductive Kind :=
| KLog | KFromPretrained | KBuildModel | KModelTo | KLoadData
| KMakeOptimizer | KMakeScheduler | KModelTrain | KModelEval
| KNoGradEnter | KNoGradExit | KToDevice | KForward | KCriterion
| KZeroGrad | KBackward | KOptimizerStep | KSchedulerStep | KAccumulate
| KPlot | KYLabel | KXLabel | KSaveFig | KTorchSave | KShow.

Definition kind (e : Event) : Kind :=
  match e with
  | EvLog _ => KLog
  | EvFromPretrained _ => KFromPretrained
  | EvBuildModel _ _ => KBuildModel
  | EvModelTo _ => KModelTo
  | EvLoadData => KLoadData
  | EvMakeOptimizer _ _ _ => KMakeOptimizer
  | EvMakeScheduler _ _ => KMakeScheduler
  | EvModelTrain => KModelTrain
  | EvModelEval => KModelEval
  | EvNoGradEnter => KNoGradEnter
  | EvNoGradExit => KNoGradExit
  | EvToDevice => KToDevice
  | EvForward _ _ _ => KForward
  | EvCriterion _ => KCriterion
  | EvZeroGrad => KZeroGrad
  | EvBackward => KBackward
  | EvOptimizerStep _ => KOptimizerStep
  | EvSchedulerStep _ => KSchedulerStep
  | EvAccumulate _ _ _ => KAccumulate
  | EvPlot _ _ => KPlot
  | EvYLabel _ => KYLabel
  | EvXLabel _ => KXLabel
  | EvSaveFig _ => KSaveFig
  | EvTorchSave _ => KTorchSave
  | EvShow => KShow
  end.

(** ** Python arithmetic on the embedded numbers *)

(** [x < y] on floats. *)
Definition Qltb (x y : Q) : bool := negb (Qle_bool y x).

(** An int used where a float is expected. *)
Definition of_int (n : nat) : Q := inject_Z (Z.of_nat n).

(** [torch.argmax] along one row: the index of the first maximal score. *)
Fixpoint argmax_from (best : Q) (best_i i : nat) (row : list Q) : nat :=
  match row with
  | [] => best_i
  | x :: rest =>
      if Qltb best x then argmax_from x i (S i) rest
      else argmax_from best best_i (S i) rest
  end.

Definition argmax (row : list Q) : nat :=
  match row with
  | [] => 0
  | x :: rest => argmax_from x 0 1 rest
  end.

(** [(a == b).sum().item()] for two index vectors of one length. *)
Fixpoint count_equal (a b : list nat) : nat :=
  match a, b with
  | x :: a', y :: b' => (if Nat.eqb x y then 1 else 0) + count_equal a' b'
  | _, _ => 0
  end.

(** [(torch.argmax(predicts, dim=1) == targets).sum().item()] *)
Definition correct (predicts : Logits) (targets : Targets) : nat :=
  count_equal (map argmax predicts) targets.

(** The condition of line 109 and the assignment of line 110, on the pair
    [(best_loss, best_acc)] and one epoch's [(test_loss, test_acc)]. *)
Definition improves (best res : Q * Q) : bool :=
  let '(best_loss, best_acc) := best in
  let '(test_loss, test_acc) := res in
  Qltb best_acc test_acc || (Qeq_bool test_acc best_acc && Qltb test_loss best_loss).

Definition update_best (best res : Q * Q) : Q * Q :=
  if improves best res then res else best.

(** Line 102: [best_loss, best_acc = 0, 0]. *)
Definition best_init : Q * Q := (0%Q, 0%Q).


(** ** The world: the mutable objects main.py shares *)

Section Torch.

(** Types owned by torch and by model.py. *)
Variables Params Grads OptState Rng Inputs Graph : Type.

(** Modelled from the spec: model.py ([DiffusionModel_FNN],
    [DiffusionModel_LSTM]) is not under src/.  The Encoder Wrapper is
    "forward(batch) -> logits" with no side effect beyond the forward
    pass; in training mode the pass draws dropout masks from the random
    generator, in evaluation mode dropout is disabled and the pass is a
    function of the parameters and the inputs.  Each pass also yields the
    autograd graph its output hangs on. *)
Variable build_model : Head -> string -> nat -> Params.
Variable forward_train : Params -> Rng -> Inputs -> Logits * Graph * Rng.
Variable forward_eval : Params -> Inputs -> Logits * Graph.

(** torch: [nn.CrossEntropyLoss()] (the value of [loss.item()]), autograd
    and [torch.optim.AdamW]. *)
Variable criterion : Logits -> Targets -> Q.
Variable no_grads : Grads.
Variable backward : Graph -> Targets -> Grads -> Grads.
Variable adamw_init : Params -> Q -> Q -> OptState.
Variable adamw_step : Q -> Grads -> OptState -> Params -> OptState * Params.

(** transformers: the multiplier of [get_linear_schedule_with_warmup],
    from [num_warmup_steps], [num_training_steps] and the current step. *)
Variable lr_lambda : Q -> nat -> nat -> Q.

(** One batch of a data loader: the input fields and the targets; its
    size is [targets.size(0)]. *)
Definition Batch : Type := Inputs * Targets.

Definition batch_size (b : Batch) : nat := List.length (snd b).

(** Modelled from the spec: data.py ([load_data]) is not under src/.  It
    returns the train and the test stream, "finite, one pass per epoch,
    restartable each epoch": a list of batches, iterated afresh by every
    [for] over it; [len(train_dataloader)] is its number of batches.
    Arguments: dataset, data_dir, tokenizer, train_batch_size,
    test_batch_size, model_name, method_name, workers. *)
Variable load_data :
  string -> string -> string * bool -> nat -> nat -> string -> string -> nat ->
  list Batch * list Batch.

(** [self.model]: its parameters, their [.grad] and [self.model.training]. *)
Record Model := mkModel {
  params : Params;
  grads : Grads;
  training : bool
}.

(** The AdamW optimizer: its moments, and the initial and the current
    learning rate of its parameter group. *)
Record Optimizer := mkOptimizer {
  opt_state : OptState;
  initial_lr : Q;
  current_lr : Q
}.

(** The LambdaLR scheduler built by [get_linear_schedule_with_warmup]. *)
Record Scheduler := mkScheduler {
  num_warmup_steps : Q;
  num_training_steps : nat;
  last_epoch : nat
}.

Record World := mkWorld {
  model : Model;
  optimizer : Optimizer;
  scheduler : Scheduler;
  rng : Rng;
  grad_enabled : bool;
  trace : list Event
}.

Definition set_model (m : Model) (w : World) : World :=
  mkWorld m (optimizer w) (scheduler w) (rng w) (grad_enabled w) (trace w).
Definition set_optimizer (o : Optimizer) (w : World) : World :=
  mkWorld (model w) o (scheduler w) (rng w) (grad_enabled w) (trace w).
Definition set_scheduler (s : Scheduler) (w : World) : World :=
  mkWorld (model w) (optimizer w) s (rng w) (grad_enabled w) (trace w).
Definition set_rng (r : Rng) (w : World) : World :=
  mkWorld (model w) (optimizer w) (scheduler w) r (grad_enabled w) (trace w).
Definition set_grad_enabled (b : bool) (w : World) : World :=
  mkWorld (model w) (optimizer w) (scheduler w) (rng w) b (trace w).
Definition set_trace (t : list Event) (w : World) : World :=
  mkWorld (model w) (optimizer w) (scheduler w) (rng w) (grad_enabled w) t.

(** ** The monad: state, and exceptions that keep the state *)

Definition M (A : Type) : Type := World -> Result A * World.

Definition ret {A} (a : A) : M A := fun w => (Ok a, w).

Definition bind {A B} (m : M A) (k : A -> M B) : M B :=
  fun w =>
    match m w with
    | (Ok a, w') => k a w'
    | (Raise e, w') => (Raise e, w')
    end.

Definition raise {A} (e : Exception) : M A := fun w => (Raise e, w).

Notation "x <- m ;; k" := (bind m (fun x => k))
  (at level 61, m at next level, right associativity).
Notation "m ;; k" := (bind m (fun _ => k))
  (at level 61, right associativity).
Notation "' pat <- m ;; k" := (bind m (fun x => match x with pat => k end))
  (at level 61, pat pattern, m at next level, right associativity).

(** A [for] loop with loop-carried locals. *)
Fixpoint for_each {A St} (body : A -> St -> M St) (l : list A) (s : St) : M St :=
  match l with
  | [] => ret s
  | a :: rest => s' <- body a s ;; for_each body rest s'
  end.

Definition emit (e : Event) : M unit :=
  fun w => (Ok tt, set_trace (trace w ++ [e]) w).

Definition log (l : LogLine) : M unit := emit (EvLog l).

(** [x / n] for an int [n]: Python raises on a zero divisor. *)
Definition truediv (x : Q) (n : nat) : M Q :=
  if Nat.eqb n 0 then raise ZeroDivisionError else ret (x / of_int n)%Q.

(** ** The torch calls of the loops *)

(** A tensor that came out of the model, and a loss computed from it. *)
Record Tensor := mkTensor { values : Logits; grad_fn : Graph }.
Record Loss := mkLoss { item : Q; loss_fn : Graph; wrt : Targets }.

(** [x.to(self.args.device)] *)
Definition to_device {A} (x : A) : M A := emit EvToDevice ;; ret x.

(** [self.model.train()] and [self.model.eval()] *)
Definition model_train : M unit :=
  fun w =>
    let m := model w in
    emit EvModelTrain (set_model (mkModel (params m) (grads m) true) w).

Definition model_eval : M unit :=
  fun w =>
    let m := model w in
    emit EvModelEval (set_model (mkModel (params m) (grads m) false) w).

(** [self.model(inputs)] *)
Definition model_call (inputs : Inputs) : M Tensor :=
  fun w =>
    let m := model w in
    if training m then
      let '(out, g, r) := forward_train (params m) (rng w) inputs in
      (emit (EvForward true (grad_enabled w) out) ;; ret (mkTensor out g))
        (set_rng r w)
    else
      let '(out, g) := forward_eval (params m) inputs in
      (emit (EvForward false (grad_enabled w) out) ;; ret (mkTensor out g)) w.

(** [criterion(predicts, targets)] *)
Definition criterion_call (predicts : Tensor) (targets : Targets) : M Loss :=
  let l := criterion (values predicts) targets in
  emit (EvCriterion l) ;; ret (mkLoss l (grad_fn predicts) targets).

(** [optimizer.zero_grad()] *)
Definition optimizer_zero_grad : M unit :=
  fun w =>
    let m := model w in
    emit EvZeroGrad (set_model (mkModel (params m) no_grads (training m)) w).

(** [loss.backward()] *)
Definition loss_backward (loss : Loss) : M unit :=
  fun w =>
    let m := model w in
    emit EvBackward
      (set_model (mkModel (params m) (backward (loss_fn loss) (wrt loss) (grads m))
                          (training m)) w).

(** [optimizer.step()] *)
Definition optimizer_step : M unit :=
  fun w =>
    let m := model w in
    let o := optimizer w in
    let '(s, p) := adamw_step (current_lr o) (grads m) (opt_state o) (params m) in
    emit (EvOptimizerStep (current_lr o))
      (set_optimizer (mkOptimizer s (initial_lr o) (current_lr o))
         (set_model (mkModel p (grads m) (training m)) w)).

(** [scheduler.step()] *)
Definition scheduler_step : M unit :=
  fun w =>
    let s := scheduler w in
    let o := optimizer w in
    let n := S (last_epoch s) in
    let rate := (initial_lr o * lr_lambda (num_warmup_steps s) (num_training_steps s) n)%Q in
    emit (EvSchedulerStep n)
      (set_scheduler (mkScheduler (num_warmup_steps s) (num_training_steps s) n)
         (set_optimizer (mkOptimizer (opt_state o) (initial_lr o) rate) w)).

(** [with torch.no_grad(): body] *)
Definition no_grad {A} (body : M A) : M A :=
  fun w =>
    let prev := grad_enabled w in
    match (emit EvNoGradEnter ;; body) (set_grad_enabled false w) with
    | (r, w') => (r, snd (emit EvNoGradExit (set_grad_enabled prev w')))
    end.

(** Lines 59-61 and 76-78 have run. *)
Definition accumulated (acc : Q * nat * nat) : M (Q * nat * nat) :=
  let '(loss_sum, n_correct, n) := acc in
  emit (EvAccumulate loss_sum n_correct n) ;; ret acc.


(** ** Instructor._train (lines 44-63) *)

(** The body of the [for] of line 48, on the locals
    [(train_loss, n_correct, n_train)].  The [tqdm] wrapper of the
    loader only draws a progress bar and is left out. *)
Definition train_batch (b : Batch) (acc : Q * nat * nat) : M (Q * nat * nat) :=
  let '(inputs, targets) := b in
  let '(train_loss, n_correct, n_train) := acc in
  inputs <- to_device inputs ;;
  targets <- to_device targets ;;
  predicts <- model_call inputs ;;
  loss <- criterion_call predicts targets ;;
  optimizer_zero_grad ;;
  loss_backward loss ;;
  optimizer_step ;;
  scheduler_step ;;
  accumulated ((train_loss + item loss * of_int (List.length targets))%Q,
               n_correct + correct (values predicts) targets,
               n_train + List.length targets).

Definition _train (dataloader : list Batch) : M (Q * Q) :=
  model_train ;;
  ' (train_loss, n_correct, n_train) <- for_each train_batch dataloader (0%Q, 0, 0) ;;
  mean_loss <- truediv train_loss n_train ;;
  accuracy <- truediv (of_int n_correct) n_train ;;
  ret (mean_loss, accuracy).

(** ** Instructor._test (lines 65-80) *)

(** The body of the [for] of line 70, on [(test_loss, n_correct, n_test)]. *)
Definition test_batch (b : Batch) (acc : Q * nat * nat) : M (Q * nat * nat) :=
  let '(inputs, targets) := b in
  let '(test_loss, n_correct, n_test) := acc in
  inputs <- to_device inputs ;;
  targets <- to_device targets ;;
  predicts <- model_call inputs ;;
  loss <- criterion_call predicts targets ;;
  accumulated ((test_loss + item loss * of_int (List.length targets))%Q,
               n_correct + correct (values predicts) targets,
               n_test + List.length targets).

Definition _test (dataloader : list Batch) : M (Q * Q) :=
  model_eval ;;
  ' (test_loss, n_correct, n_test) <- no_grad (for_each test_batch dataloader (0%Q, 0, 0)) ;;
  mean_loss <- truediv test_loss n_test ;;
  accuracy <- truediv (of_int n_correct) n_test ;;
  ret (mean_loss, accuracy).

(** ** Instructor.__init__ (lines 14-37) *)

(** The attributes [__init__] leaves on [self]; [self.model] is the
    world's [model]. *)
Record Self := mkSelf {
  self_args : Args;
  self_tokenizer : string * bool;      (* checkpoint, add_prefix_space *)
  self_head : Head
}.

(** [AutoTokenizer.from_pretrained] / [AutoModel.from_pretrained] *)
Definition from_pretrained (checkpoint : string) : M unit :=
  emit (EvFromPretrained checkpoint).

(** [DiffusionModel_FNN(self.base_model, args.num_classes)] and its LSTM
    sibling: a fresh module, in training mode, without gradients. *)
Definition construct_model (h : Head) (checkpoint : string) (classes : nat) : M unit :=
  fun w =>
    emit (EvBuildModel h classes)
      (set_model (mkModel (build_model h checkpoint classes) no_grads true) w).

Definition _print_args (args : Args) : M unit := log (LogArgs args).

Definition __init__ (args : Args) : M Self :=
  log (LogCreating (model_name args)) ;;
  tokenizer <-
    (if String.eqb (model_name args) "bert" then
       from_pretrained "bert-base-uncased" ;;
       from_pretrained "bert-base-uncased" ;;
       ret ("bert-base-uncased", false)
     else if String.eqb (model_name args) "roberta" then
       from_pretrained "roberta-base" ;;
       from_pretrained "roberta-base" ;;
       ret ("roberta-base", true)
     else raise (ValueError "unknown model")) ;;
  head <-
    (if String.eqb (method_name args) "fnn" then
       construct_model FNN (fst tokenizer) (num_classes args) ;; ret FNN
     else if String.eqb (method_name args) "lstm" then
       construct_model LSTM (fst tokenizer) (num_classes args) ;; ret LSTM
     else raise (ValueError "unknown method")) ;;
  emit (EvModelTo (device_type args)) ;;
  (if String.eqb (device_type args) "cuda"
   then log (LogCuda (device_index args)) else ret tt) ;;
  _print_args args ;;
  ret (mkSelf args tokenizer head).

(** ** Instructor.run (lines 82-123) *)

Definition load_data_call (self : Self) : M (list Batch * list Batch) :=
  let args := self_args self in
  emit EvLoadData ;;
  ret (load_data (dataset args) (data_dir args) (self_tokenizer self)
         (train_batch_size args) (test_batch_size args)
         (model_name args) (method_name args) 0).

(** [torch.optim.AdamW(_params, lr=..., weight_decay=..., eps=...)] *)
Definition make_optimizer (rate weight_decay epsilon : Q) : M unit :=
  fun w =>
    emit (EvMakeOptimizer rate weight_decay epsilon)
      (set_optimizer
         (mkOptimizer (adamw_init (params (model w)) weight_decay epsilon) rate rate) w).

(** [get_linear_schedule_with_warmup(optimizer, num_warmup_steps=...,
    num_training_steps=...)]: the constructor takes the initial step, so
    the counter starts at 0 with the rate of step 0. *)
Definition make_scheduler (warmup : Q) (total : nat) : M unit :=
  fun w =>
    let o := optimizer w in
    emit (EvMakeScheduler warmup total)
      (set_scheduler (mkScheduler warmup total 0)
         (set_optimizer
            (mkOptimizer (opt_state o) (initial_lr o)
               (initial_lr o * lr_lambda warmup total 0)%Q) w)).

(** The locals the epoch loop carries: [(best_loss, best_acc)], [l_acc],
    [l_epo]. *)
Record Locals := mkLocals {
  best : Q * Q;
  l_acc : list Q;
  l_epo : list nat
}.

(** The body of the [for] of line 105. *)
Definition epoch_body (args : Args) (train_dataloader test_dataloader : list Batch)
    (epoch : nat) (s : Locals) : M Locals :=
  ' (train_loss, train_acc) <- _train train_dataloader ;;
  ' (test_loss, test_acc) <- _test test_dataloader ;;
  let l_epo := l_epo s ++ [epoch] in
  let l_acc := l_acc s ++ [test_acc] in
  let best := update_best (best s) (test_loss, test_acc) in
  percent <- truediv (of_int (100 * (epoch + 1))) (num_epoch args) ;;
  log (LogProgress (epoch + 1) (num_epoch args)) ;;
  log (LogTrain train_loss train_acc) ;;
  log (LogTest test_loss test_acc) ;;
  ret (mkLocals best l_acc l_epo).

Definition run (self : Self) : M unit :=
  let args := self_args self in
  ' (train_dataloader, test_dataloader) <- load_data_call self ;;
  make_optimizer (lr args) (decay args) (eps args) ;;
  let total_steps := List.length train_dataloader * num_epoch args in
  let warmup_steps := ((1 # 10) * of_int (List.length train_dataloader))%Q in
  make_scheduler warmup_steps total_steps ;;
  s <- for_each (epoch_body args train_dataloader test_dataloader)
         (seq 0 (num_epoch args)) (mkLocals best_init [] []) ;;
  log (LogBest (fst (best s)) (snd (best s))) ;;
  log (LogSaved (log_name args)) ;;
  emit (EvPlot (l_epo s) (l_acc s)) ;;
  emit (EvYLabel "accuracy") ;;
  emit (EvXLabel "epoch") ;;
  emit (EvSaveFig "image.png") ;;
  emit EvShow.

(** The script (lines 126-136), from the [args] that [get_config]
    (config.py) returns on. *)
Definition main (args : Args) : M unit :=
  ins <- __init__ args ;;
  run ins.


(** ** Observations on a trace *)

(** The losses the criterion returned, in call order. *)
Fixpoint criteria (tr : list Event) : list Q :=
  match tr with
  | [] => []
  | EvCriterion l :: rest => l :: criteria rest
  | _ :: rest => criteria rest
  end.

(** The logits the model returned, in call order. *)
Fixpoint forwards (tr : list Event) : list Logits :=
  match tr with
  | [] => []
  | EvForward _ _ out :: rest => out :: forwards rest
  | _ :: rest => forwards rest
  end.

(** The [(training, grad_enabled)] flags each model call ran under. *)
Fixpoint forward_modes (tr : list Event) : list (bool * bool) :=
  match tr with
  | [] => []
  | EvForward t g _ :: rest => (t, g) :: forward_modes rest
  | _ :: rest => forward_modes rest
  end.

(** The files written, in order: figures and checkpoints. *)
Fixpoint persisted (tr : list Event) : list string :=
  match tr with
  | [] => []
  | EvSaveFig f :: rest => f :: persisted rest
  | EvTorchSave f :: rest => f :: persisted rest
  | _ :: rest => persisted rest
  end.

(** The [(test_loss, test_acc)] pairs logged, one per finished epoch. *)
Fixpoint test_results (tr : list Event) : list (Q * Q) :=
  match tr with
  | [] => []
  | EvLog (LogTest l a) :: rest => (l, a) :: test_results rest
  | _ :: rest => test_results rest
  end.

Definition Kind_eqb (a b : Kind) : bool :=
  match a, b with
  | KLog, KLog | KFromPretrained, KFromPretrained | KBuildModel, KBuildModel
  | KModelTo, KModelTo | KLoadData, KLoadData | KMakeOptimizer, KMakeOptimizer
  | KMakeScheduler, KMakeScheduler | KModelTrain, KModelTrain
  | KModelEval, KModelEval | KNoGradEnter, KNoGradEnter
  | KNoGradExit, KNoGradExit | KToDevice, KToDevice | KForward, KForward
  | KCriterion, KCriterion | KZeroGrad, KZeroGrad | KBackward, KBackward
  | KOptimizerStep, KOptimizerStep | KSchedulerStep, KSchedulerStep
  | KAccumulate, KAccumulate | KPlot, KPlot | KYLabel, KYLabel
  | KXLabel, KXLabel | KSaveFig, KSaveFig | KTorchSave, KTorchSave
  | KShow, KShow => true
  | _, _ => false
  end.

(** How many events of kind [k] a trace holds. *)
Definition count_kind (k : Kind) (tr : list Event) : nat :=
  List.length (filter (fun e => Kind_eqb k (kind e)) tr).

(** The kinds of the calls of one training batch and of one evaluation
    batch, in source order. *)
Definition train_kinds : list Kind :=
  [KToDevice; KToDevice; KForward; KCriterion;
   KZeroGrad; KBackward; KOptimizerStep; KSchedulerStep; KAccumulate].

Definition test_kinds : list Kind :=
  [KToDevice; KToDevice; KForward; KCriterion; KAccumulate].

(** [sum(l_i * b_i)] and [sum(b_i)] as the spec writes them. *)
Fixpoint weighted_sum (losses : list Q) (sizes : list nat) : Q :=
  match losses, sizes with
  | l :: losses', b :: sizes' => (l * of_int b + weighted_sum losses' sizes')%Q
  | _, _ => 0%Q
  end.

Definition total_samples (dl : list Batch) : nat :=
  list_sum (map batch_size dl).

(** The number of rows whose argmax is the target, over a whole pass. *)
Fixpoint correct_total (outs : list Logits) (targets : list Targets) : nat :=
  match outs, targets with
  | out :: outs', t :: targets' => correct out t + correct_total outs' targets'
  | _, _ => 0
  end.

(** ** The passes, the run and the snapshot, as the claims speak of them *)

(** The totals after an evaluation pass and the events it leaves, with
    the model in evaluation mode. *)
Fixpoint test_pass (p : Params) (ge : bool) (dl : list Batch) (acc : Q * nat * nat)
  : (Q * nat * nat) * list Event :=
  match dl with
  | [] => (acc, [])
  | b :: rest =>
      let out := fst (forward_eval p (fst b)) in
      let l := criterion out (snd b) in
      let acc1 := ((fst (fst acc) + l * of_int (batch_size b))%Q,
                   snd (fst acc) + correct out (snd b),
                   snd acc + batch_size b) in
      let r := test_pass p ge rest acc1 in
      (fst r,
       [EvToDevice; EvToDevice; EvForward false ge out; EvCriterion l;
        EvAccumulate (fst (fst acc1)) (snd (fst acc1)) (snd acc1)] ++ snd r)
  end.

(** The result and the events of [_test], from the parameters alone. *)
Definition test_outcome (p : Params) (dl : list Batch) : Result (Q * Q) :=
  let '(test_loss, n_correct, n_test) := fst (test_pass p false dl (0%Q, 0, 0)) in
  if Nat.eqb n_test 0 then Raise ZeroDivisionError
  else Ok ((test_loss / of_int n_test)%Q, (of_int n_correct / of_int n_test)%Q).

Definition test_events (p : Params) (dl : list Batch) : list Event :=
  EvModelEval :: EvNoGradEnter :: snd (test_pass p false dl (0%Q, 0, 0)) ++ [EvNoGradExit].

(** The events of a pass are calls into torch only: nothing is logged,
    loaded or written. *)
Definition quiet (tr : list Event) : Prop :=
  count_kind KLog tr = 0 /\ count_kind KSaveFig tr = 0 /\
  count_kind KTorchSave tr = 0 /\ count_kind KLoadData tr = 0 /\
  count_kind KMakeScheduler tr = 0.

(** The two streams [run] gets from [load_data]. *)
Definition loaders (self : Self) : list Batch * list Batch :=
  let args := self_args self in
  load_data (dataset args) (data_dir args) (self_tokenizer self)
    (train_batch_size args) (test_batch_size args)
    (model_name args) (method_name args) 0.

(** No epoch is asked for, or both splits hold at least one sample. *)
Definition run_ready (self : Self) : Prop :=
  num_epoch (self_args self) = 0 \/
  (0 < total_samples (fst (loaders self)) /\ 0 < total_samples (snd (loaders self))).

(** The seven calls after the epoch loop (lines 117-123). *)
Definition report (args : Args) (best : Q * Q) (xs : list nat) (ys : list Q)
  : list Event :=
  [EvLog (LogBest (fst best) (snd best)); EvLog (LogSaved (log_name args));
   EvPlot xs ys; EvYLabel "accuracy"; EvXLabel "epoch";
   EvSaveFig "image.png"; EvShow].

(** The names [__init__] recognises. *)
Definition known_model (name : string) : Prop := name = "bert" \/ name = "roberta".
Definition known_method (name : string) : Prop := name = "fnn" \/ name = "lstm".

(** The snapshot after a sequence of [(test_loss, test_acc)] results. *)
Definition final_best (results : list (Q * Q)) : Q * Q :=
  fold_left update_best results best_init.

(** [r] is no better than [b]: lower accuracy, or the same accuracy and
    no lower loss. *)
Definition dominated (r b : Q * Q) : Prop :=
  (snd r < snd b)%Q \/ ((snd r == snd b)%Q /\ (fst b <= fst r)%Q).

(** * Proofs *)

Ltac norm_world :=
  cbn [set_model set_optimizer set_scheduler set_rng set_grad_enabled set_trace
       model optimizer scheduler rng grad_enabled trace
       params grads training opt_state initial_lr current_lr
       num_warmup_steps num_training_steps last_epoch] in *.

(** ** The monad *)

Lemma bind_Ok {A B} (m : M A) (k : A -> M B) (w w' : World) (a : A) :
  m w = (Ok a, w') -> bind m k w = k a w'.
Proof. intro H. unfold bind. now rewrite H. Qed.

Lemma bind_Raise {A B} (m : M A) (k : A -> M B) (w w' : World) (e : Exception) :
  m w = (Raise e, w') -> bind m k w = (Raise e, w').
Proof. intro H. unfold bind. now rewrite H. Qed.

(** ** One batch *)

Lemma train_batch_step (b : Batch) (acc : Q * nat * nat) (w : World) :
  exists out l rate w',
    train_batch b acc w =
      (Ok ((fst (fst acc) + l * of_int (batch_size b))%Q,
           snd (fst acc) + correct out (snd b),
           snd acc + batch_size b), w') /\
    trace w' = trace w ++
      [EvToDevice; EvToDevice;
       EvForward (training (model w)) (grad_enabled w) out; EvCriterion l;
       EvZeroGrad; EvBackward; EvOptimizerStep rate;
       EvSchedulerStep (S (last_epoch (scheduler w)));
       EvAccumulate (fst (fst acc) + l * of_int (batch_size b))%Q
                    (snd (fst acc) + correct out (snd b))
                    (snd acc + batch_size b)] /\
    training (model w') = training (model w) /\
    grad_enabled w' = grad_enabled w /\
    scheduler w' =
      mkScheduler (num_warmup_steps (scheduler w))
                  (num_training_steps (scheduler w))
                  (S (last_epoch (scheduler w))).
Proof.
  destruct b as [inputs targets], acc as [[train_loss n_correct] n_train].
  unfold train_batch, batch_size, bind, to_device, model_call, criterion_call,
    optimizer_zero_grad, loss_backward, optimizer_step, scheduler_step,
    accumulated, emit, ret; simpl.
  case_eq (training (model w)); intro Ht; simpl.
  - destruct (forward_train (params (model w)) (rng w) inputs) as [[out g] r]; simpl.
    destruct (adamw_step _ _ _ _) as [s p]; simpl.
    do 4 eexists. split; [reflexivity|]. simpl.
    repeat rewrite <- app_assoc. simpl. repeat split; assumption.
  - destruct (forward_eval (params (model w)) inputs) as [out g]; simpl.
    destruct (adamw_step _ _ _ _) as [s p]; simpl.
    do 4 eexists. split; [reflexivity|]. simpl.
    repeat rewrite <- app_assoc. simpl. repeat split; assumption.
Qed.


(** ** The loop of [_train] *)

Lemma count_equal_le (a b : list nat) : count_equal a b <= List.length b.
Proof.
  revert b; induction a as [|x a IH]; intros [|y b]; simpl; try lia.
  specialize (IH b). destruct (Nat.eqb x y); lia.
Qed.

Lemma correct_le (out : Logits) (t : Targets) : correct out t <= List.length t.
Proof. apply count_equal_le. Qed.

Lemma correct_total_le (outs : list Logits) (ts : list Targets) :
  correct_total outs ts <= list_sum (map (@List.length nat) ts).
Proof.
  revert ts; induction outs as [|o outs IH]; intros [|t ts]; simpl; try lia.
  specialize (IH ts). pose proof (correct_le o t). lia.
Qed.

Lemma train_loop (dl : list Batch) :
  forall (acc : Q * nat * nat) (w : World),
  exists acc' w' tr,
    for_each train_batch dl acc w = (Ok acc', w') /\
    trace w' = trace w ++ tr /\
    map kind tr = flat_map (fun _ => train_kinds) dl /\
    List.length (criteria tr) = List.length dl /\
    List.length (forwards tr) = List.length dl /\
    (fst (fst acc') ==
       fst (fst acc) + weighted_sum (criteria tr) (map batch_size dl))%Q /\
    snd (fst acc') = snd (fst acc) + correct_total (forwards tr) (map snd dl) /\
    snd acc' = snd acc + total_samples dl /\
    training (model w') = training (model w) /\
    grad_enabled w' = grad_enabled w /\
    scheduler w' =
      mkScheduler (num_warmup_steps (scheduler w))
                  (num_training_steps (scheduler w))
                  (last_epoch (scheduler w) + List.length dl).
Proof.
  induction dl as [|b dl IH]; intros acc w.
  - exists acc, w, []. simpl. rewrite app_nil_r, !Nat.add_0_r.
    repeat split; try reflexivity.
    + ring.
    + destruct (scheduler w); reflexivity.
  - destruct (train_batch_step b acc w)
      as (out & l & rate & w1 & Hrun & Htr & Hmode & Hgrad & Hsched).
    destruct (IH ((fst (fst acc) + l * of_int (batch_size b))%Q,
                  snd (fst acc) + correct out (snd b), snd acc + batch_size b) w1)
      as (acc' & w' & tr & Hrun' & Htr' & Hk & Hc & Hf & Hloss & Hcorr & Hn & Hmode' & Hgrad' & Hsched').
    eexists acc', w', (_ ++ tr).
    split.
    { simpl. unfold bind. rewrite Hrun. exact Hrun'. }
    split.
    { rewrite Htr', Htr, <- app_assoc. reflexivity. }
    simpl in *.
    repeat split.
    + now rewrite Hk.
    + now rewrite Hc.
    + now rewrite Hf.
    + rewrite Hloss. ring.
    + rewrite Hcorr. lia.
    + rewrite Hn. unfold total_samples. simpl. lia.
    + congruence.
    + congruence.
    + rewrite Hsched', Hsched. simpl. f_equal. lia.
Qed.


(** What [_train] returns and leaves behind, whatever the stream. *)
Lemma _train_spec (dl : list Batch) (w : World) :
  exists loss_sum w' tr,
    _train dl w =
      (if Nat.eqb (total_samples dl) 0 then Raise ZeroDivisionError
       else Ok ((loss_sum / of_int (total_samples dl))%Q,
                (of_int (correct_total (forwards tr) (map snd dl))
                 / of_int (total_samples dl))%Q), w') /\
    trace w' = trace w ++ EvModelTrain :: tr /\
    map kind tr = flat_map (fun _ => train_kinds) dl /\
    List.length (criteria tr) = List.length dl /\
    List.length (forwards tr) = List.length dl /\
    (loss_sum == weighted_sum (criteria tr) (map batch_size dl))%Q /\
    training (model w') = true /\
    grad_enabled w' = grad_enabled w /\
    scheduler w' =
      mkScheduler (num_warmup_steps (scheduler w))
                  (num_training_steps (scheduler w))
                  (last_epoch (scheduler w) + List.length dl).
Proof.
  unfold _train, bind. unfold model_train at 1.
  set (w0 := set_model _ w). unfold emit at 1.
  set (w1 := set_trace _ w0).
  destruct (train_loop dl (0%Q, 0, 0) w1)
    as (acc' & w' & tr & Hrun & Htr & Hk & Hc & Hf & Hloss & Hcorr & Hn & Hmode & Hgrad & Hsched).
  rewrite Hrun. destruct acc' as [[ls nc] n]. simpl in *. subst nc n.
  exists ls, w', tr.
  split.
  { unfold truediv. destruct (Nat.eqb (total_samples dl) 0); reflexivity. }
  split.
  { rewrite Htr. subst w1 w0. simpl. rewrite <- app_assoc. reflexivity. }
  repeat split; auto.
  rewrite Hloss. ring.
Qed.

(** ** The loop of [_test], as a function of the parameters *)

Lemma test_loop (dl : list Batch) :
  forall (acc : Q * nat * nat) (w : World),
    training (model w) = false ->
    for_each test_batch dl acc w =
      (Ok (fst (test_pass (params (model w)) (grad_enabled w) dl acc)),
       set_trace (trace w ++ snd (test_pass (params (model w)) (grad_enabled w) dl acc)) w).
Proof.
  induction dl as [|[inputs targets] dl IH]; intros [[test_loss n_correct] n_test] w Hmode.
  - simpl. unfold ret. rewrite app_nil_r. destruct w; reflexivity.
  - simpl. unfold bind at 1.
    unfold test_batch, bind, to_device, model_call, criterion_call, accumulated,
      emit, ret; simpl.
    rewrite Hmode.
    destruct (forward_eval (params (model w)) inputs) as [out g]; simpl.
    rewrite IH by (simpl; assumption). simpl.
    unfold batch_size; simpl.
    repeat rewrite <- app_assoc. reflexivity.
Qed.

Lemma test_pass_spec (p : Params) (ge : bool) (dl : list Batch) :
  forall acc : Q * nat * nat,
    let r := test_pass p ge dl acc in
    map kind (snd r) = flat_map (fun _ => test_kinds) dl /\
    criteria (snd r) =
      map (fun b => criterion (fst (forward_eval p (fst b))) (snd b)) dl /\
    forwards (snd r) = map (fun b => fst (forward_eval p (fst b))) dl /\
    forward_modes (snd r) = map (fun _ => (false, ge)) dl /\
    (fst (fst (fst r)) ==
       fst (fst acc) + weighted_sum (criteria (snd r)) (map batch_size dl))%Q /\
    snd (fst (fst r)) =
      snd (fst acc) + correct_total (forwards (snd r)) (map snd dl) /\
    snd (fst r) = snd acc + total_samples dl.
Proof.
  induction dl as [|b dl IH]; intros acc; simpl.
  - repeat split; try reflexivity; try ring; try lia.
    unfold total_samples; simpl; lia.
  - destruct (IH ((fst (fst acc) + criterion (fst (forward_eval p (fst b))) (snd b)
                                   * of_int (batch_size b))%Q,
                  snd (fst acc) + correct (fst (forward_eval p (fst b))) (snd b),
                  snd acc + batch_size b))
      as (Hk & Hc & Hf & Hm & Hloss & Hcorr & Hn).
    simpl in *.
    repeat split.
    + now rewrite Hk.
    + now rewrite Hc.
    + now rewrite Hf.
    + now rewrite Hm.
    + rewrite Hloss. ring.
    + rewrite Hcorr. lia.
    + rewrite Hn. unfold total_samples. simpl. lia.
Qed.

Lemma _test_eval (dl : list Batch) (w : World) :
  _test dl w =
    (test_outcome (params (model w)) dl,
     set_trace (trace w ++ test_events (params (model w)) dl)
       (set_model (mkModel (params (model w)) (grads (model w)) false) w)).
Proof.
  unfold _test, test_outcome, test_events, bind, model_eval, no_grad, bind, emit.
  simpl.
  rewrite test_loop by reflexivity. simpl.
  destruct (test_pass (params (model w)) false dl (0%Q, 0, 0)) as [[[ls nc] n] tr]; simpl.
  unfold truediv, set_trace, set_model, set_grad_enabled, raise, ret; simpl.
  repeat rewrite <- app_assoc. simpl.
  destruct (Nat.eqb n 0); reflexivity.
Qed.


(** ** Counting on traces *)

Lemma test_results_app (a b : list Event) :
  test_results (a ++ b) = test_results a ++ test_results b.
Proof.
  induction a as [|e a IH]; simpl; [reflexivity|].
  destruct e as [[]| | | | | | | | | | | | | | | | | | | | | | | |];
    simpl; rewrite IH; reflexivity.
Qed.

Lemma persisted_app (a b : list Event) :
  persisted (a ++ b) = persisted a ++ persisted b.
Proof.
  induction a as [|e a IH]; simpl; [reflexivity|].
  destruct e; simpl; rewrite IH; reflexivity.
Qed.

Lemma count_kind_app (k : Kind) (a b : list Event) :
  count_kind k (a ++ b) = count_kind k a + count_kind k b.
Proof. unfold count_kind. now rewrite filter_app, length_app. Qed.

Lemma count_kind_kinds (k : Kind) (tr : list Event) :
  count_kind k tr = List.length (filter (Kind_eqb k) (map kind tr)).
Proof.
  unfold count_kind. induction tr as [|e tr IH]; simpl; [reflexivity|].
  destruct (Kind_eqb k (kind e)); simpl; now rewrite IH.
Qed.

Lemma filter_flat_const {A} (f : Kind -> bool) (ks : list Kind) (l : list A) :
  List.length (filter f (flat_map (fun _ => ks) l)) =
  List.length l * List.length (filter f ks).
Proof.
  induction l as [|a l IH]; simpl; [reflexivity|].
  now rewrite filter_app, length_app, IH.
Qed.

Lemma no_log_no_results (tr : list Event) :
  count_kind KLog tr = 0 -> test_results tr = [].
Proof.
  unfold count_kind. induction tr as [|e tr IH]; simpl; [reflexivity|].
  destruct e; simpl; auto; discriminate.
Qed.

Lemma no_save_no_persisted (tr : list Event) :
  count_kind KSaveFig tr = 0 -> count_kind KTorchSave tr = 0 -> persisted tr = [].
Proof.
  unfold count_kind. induction tr as [|e tr IH]; simpl; [reflexivity|].
  destruct e; simpl; auto; discriminate.
Qed.

Lemma train_kinds_quiet (A : Type) (dl : list A) (tr : list Event) :
  map kind tr = flat_map (fun _ => train_kinds) dl ->
  quiet tr /\
  count_kind KSchedulerStep tr = List.length dl /\
  count_kind KOptimizerStep tr = List.length dl.
Proof.
  intro Hk. unfold quiet.
  rewrite !count_kind_kinds, Hk, !filter_flat_const. simpl.
  repeat split; lia.
Qed.

Lemma test_events_quiet (p : Params) (dl : list Batch) :
  quiet (test_events p dl) /\
  count_kind KSchedulerStep (test_events p dl) = 0 /\
  count_kind KOptimizerStep (test_events p dl) = 0 /\
  count_kind KBackward (test_events p dl) = 0 /\
  count_kind KZeroGrad (test_events p dl) = 0.
Proof.
  unfold quiet, test_events.
  destruct (test_pass_spec p false dl (0%Q, 0, 0)) as (Hk & _).
  change (EvModelEval :: EvNoGradEnter :: ?t ++ ?u)
    with ([EvModelEval; EvNoGradEnter] ++ t ++ u).
  rewrite !count_kind_app, !(count_kind_kinds _ (snd _)), Hk, !filter_flat_const.
  unfold count_kind. simpl. repeat split; lia.
Qed.

(** ** One epoch and the epoch loop *)

Lemma ratio_unit (k n : nat) :
  k <= n -> 0 < n -> (0 <= of_int k / of_int n /\ of_int k / of_int n <= 1)%Q.
Proof.
  intros Hk Hn. unfold of_int.
  assert (Hpos : (0 < inject_Z (Z.of_nat n))%Q).
  { change 0%Q with (inject_Z 0). rewrite <- Zlt_Qlt. lia. }
  split.
  - apply Qle_shift_div_l; [assumption|]. rewrite Qmult_0_l.
    change 0%Q with (inject_Z 0). rewrite <- Zle_Qle. lia.
  - apply Qle_shift_div_r; [assumption|]. rewrite Qmult_1_l.
    rewrite <- Zle_Qle. lia.
Qed.


Lemma epoch_body_spec (args : Args) (train test : list Batch)
    (epoch : nat) (s : Locals) (w : World) :
  0 < total_samples train -> 0 < total_samples test -> num_epoch args <> 0 ->
  exists test_loss test_acc w' tr,
    epoch_body args train test epoch s w =
      (Ok (mkLocals (update_best (best s) (test_loss, test_acc))
                    (l_acc s ++ [test_acc]) (l_epo s ++ [epoch])), w') /\
    trace w' = trace w ++ tr /\
    test_results tr = [(test_loss, test_acc)] /\
    persisted tr = [] /\
    count_kind KLoadData tr = 0 /\
    count_kind KMakeScheduler tr = 0 /\
    count_kind KSchedulerStep tr = List.length train /\
    count_kind KOptimizerStep tr = List.length train /\
    scheduler w' =
      mkScheduler (num_warmup_steps (scheduler w))
                  (num_training_steps (scheduler w))
                  (last_epoch (scheduler w) + List.length train).
Proof.
  intros Htrain Htest Hepochs.
  destruct (_train_spec train w)
    as (ls & w1 & tr1 & Hrun & Htr & Hk & _ & _ & _ & _ & _ & Hsched).
  apply Nat.neq_0_lt_0, Nat.eqb_neq in Htrain. rewrite Htrain in Hrun.
  destruct (train_kinds_quiet _ train tr1 Hk) as ((Q1 & Q2 & Q3 & Q4 & Q5) & Hs1 & Ho1).
  destruct (test_events_quiet (params (model w1)) test)
    as ((T1 & T2 & T3 & T4 & T5) & Hs2 & Ho2 & _).
  pose proof (_test_eval test w1) as Hrun2.
  unfold test_outcome in Hrun2.
  destruct (test_pass_spec (params (model w1)) false test (0%Q, 0, 0))
    as (_ & _ & _ & _ & _ & _ & Hn).
  destruct (test_pass (params (model w1)) false test (0%Q, 0, 0))
    as [[[tl nc] n] tr2]; simpl in Hn, Hrun2. subst n.
  apply Nat.neq_0_lt_0, Nat.eqb_neq in Htest. rewrite Htest in Hrun2.
  apply Nat.eqb_neq in Hepochs.
  unfold epoch_body. unfold bind at 1. rewrite Hrun.
  unfold bind at 1. rewrite Hrun2.
  unfold bind, truediv, log, emit, ret. rewrite Hepochs. simpl.
  do 4 eexists. split; [reflexivity|]. simpl.
  rewrite Htr. repeat rewrite <- app_assoc.
  split; [reflexivity|].
  change (EvModelTrain :: tr1) with ([EvModelTrain] ++ tr1).
  rewrite !test_results_app, !persisted_app, !count_kind_app.
  rewrite (no_log_no_results tr1 Q1), (no_log_no_results _ T1).
  rewrite (no_save_no_persisted tr1 Q2 Q3), (no_save_no_persisted _ T2 T3).
  rewrite Q4, T4, Q5, T5, Hs1, Hs2, Ho1, Ho2.
  unfold count_kind. simpl.
  repeat split; try lia. exact Hsched.
Qed.


Lemma epoch_loop (args : Args) (train test : list Batch) (es : list nat) :
  es = [] \/ (0 < total_samples train /\ 0 < total_samples test /\ num_epoch args <> 0) ->
  forall (s : Locals) (w : World),
  exists s' w' tr,
    for_each (epoch_body args train test) es s w = (Ok s', w') /\
    trace w' = trace w ++ tr /\
    l_epo s' = l_epo s ++ es /\
    l_acc s' = l_acc s ++ map snd (test_results tr) /\
    best s' = fold_left update_best (test_results tr) (best s) /\
    List.length (test_results tr) = List.length es /\
    persisted tr = [] /\
    count_kind KLoadData tr = 0 /\
    count_kind KMakeScheduler tr = 0 /\
    count_kind KSchedulerStep tr = List.length train * List.length es /\
    count_kind KOptimizerStep tr = List.length train * List.length es /\
    scheduler w' =
      mkScheduler (num_warmup_steps (scheduler w))
                  (num_training_steps (scheduler w))
                  (last_epoch (scheduler w) + List.length train * List.length es).
Proof.
  induction es as [|epoch es IH]; intros Hready s w.
  - exists s, w, []. simpl. rewrite !app_nil_r, Nat.mul_0_r, Nat.add_0_r.
    repeat split; try reflexivity. destruct (scheduler w); reflexivity.
  - destruct Hready as [Hnil | (Htrain & Htest & Hepochs)]; [discriminate|].
    destruct (epoch_body_spec args train test epoch s w Htrain Htest Hepochs)
      as (tl & ta & w1 & tr1 & Hrun & Htr & Hres & Hper & Hload & Hmk & Hs & Ho & Hsched).
    destruct (IH (or_intror (conj Htrain (conj Htest Hepochs)))
                (mkLocals (update_best (best s) (tl, ta))
                          (l_acc s ++ [ta]) (l_epo s ++ [epoch])) w1)
      as (s' & w' & tr & Hrun' & Htr' & Hepo & Hacc & Hbest & Hlen & Hper' & Hload'
          & Hmk' & Hs' & Ho' & Hsched').
    exists s', w', (tr1 ++ tr). simpl in *.
    split.
    { unfold bind. rewrite Hrun. exact Hrun'. }
    split.
    { rewrite Htr', Htr, app_assoc. reflexivity. }
    rewrite test_results_app, persisted_app, !count_kind_app, Hres.
    simpl. repeat split.
    + rewrite Hepo, <- app_assoc. reflexivity.
    + rewrite Hacc, <- app_assoc. reflexivity.
    + exact Hbest.
    + now rewrite Hlen.
    + now rewrite Hper, Hper'.
    + lia.
    + lia.
    + lia.
    + lia.
    + rewrite Hsched', Hsched. simpl. f_equal. lia.
Qed.

(** ** The whole run *)

Lemma run_spec (self : Self) (w : World) :
  run_ready self ->
  let args := self_args self in
  let batches := List.length (fst (loaders self)) in
  let warmup := ((1 # 10) * of_int batches)%Q in
  exists w' tr,
    run self w = (Ok tt, w') /\
    trace w' =
      trace w ++
      [EvLoadData; EvMakeOptimizer (lr args) (decay args) (eps args);
       EvMakeScheduler warmup (batches * num_epoch args)] ++
      tr ++
      report args (fold_left update_best (test_results tr) best_init)
        (seq 0 (num_epoch args)) (map snd (test_results tr)) /\
    List.length (test_results tr) = num_epoch args /\
    persisted tr = [] /\
    count_kind KLoadData tr = 0 /\
    count_kind KMakeScheduler tr = 0 /\
    count_kind KSchedulerStep tr = batches * num_epoch args /\
    count_kind KOptimizerStep tr = batches * num_epoch args /\
    scheduler w' = mkScheduler warmup (batches * num_epoch args) (batches * num_epoch args).
Proof.
  intros Hready args batches warmup.
  subst batches warmup. unfold run_ready in Hready.
  unfold run. fold args in Hready |- *.
  erewrite bind_Ok by reflexivity. cbv beta.
  change (load_data _ _ _ _ _ _ _ _) with (loaders self).
  destruct (loaders self) as [train test]. cbv beta iota.
  unfold fst, snd in Hready |- *.
  erewrite bind_Ok by reflexivity. norm_world.
  erewrite bind_Ok by reflexivity. norm_world.
  match goal with
  | |- context [bind (for_each ?body ?es ?s0) _ ?w0] =>
      destruct (epoch_loop args train test (seq 0 (num_epoch args))) with (s := s0) (w := w0)
        as (s' & w' & tr & Hrun & Htr & Hepo & Hacc & Hbest & Hlen & Hper & Hload
            & Hmk & Hs & Ho & Hsched)
  end.
  { destruct Hready as [H0 | [H1 H2]].
    - left. now rewrite H0.
    - destruct (num_epoch args) eqn:E; [now left | right; repeat split; auto]. }
  erewrite bind_Ok by exact Hrun.
  do 6 (erewrite bind_Ok by reflexivity; norm_world).
  unfold emit at 1. norm_world.
  rewrite length_seq in *.
  cbn [trace scheduler num_warmup_steps num_training_steps last_epoch
       l_epo l_acc best app] in *.
  eexists. exists tr.
  split; [reflexivity|]. norm_world.
  rewrite Htr, Hepo, Hacc, Hbest. unfold report.
  repeat rewrite <- app_assoc. cbn [app].
  repeat split; auto.
Qed.


(** ** Construction *)

Lemma init_unknown (args : Args) (w : World) :
  ~ known_model (model_name args) \/ ~ known_method (method_name args) ->
  exists msg w' tr,
    __init__ args w = (Raise (ValueError msg), w') /\
    trace w' = trace w ++ tr /\
    count_kind KLoadData tr = 0.
Proof.
  unfold known_model, known_method. intro Hbad.
  unfold __init__, _print_args, bind, log, from_pretrained, construct_model,
    emit, raise, ret.
  destruct (String.eqb (model_name args) "bert") eqn:E1;
    [apply String.eqb_eq in E1 |
     destruct (String.eqb (model_name args) "roberta") eqn:E2;
       [apply String.eqb_eq in E2 |]];
    (destruct (String.eqb (method_name args) "fnn") eqn:E3;
       [apply String.eqb_eq in E3 |
        destruct (String.eqb (method_name args) "lstm") eqn:E4;
          [apply String.eqb_eq in E4 |]]);
    try (exfalso; destruct Hbad as [H | H]; apply H; auto; fail);
    norm_world; do 3 eexists;
    (split; [reflexivity|]); norm_world; repeat rewrite <- app_assoc;
    (split; [reflexivity|]); reflexivity.
Qed.

Lemma init_known (args : Args) (w : World) :
  known_model (model_name args) -> known_method (method_name args) ->
  exists self w' tr,
    __init__ args w = (Ok self, w') /\
    self_args self = args /\
    trace w' = trace w ++ tr /\
    count_kind KLoadData tr = 0.
Proof.
  unfold known_model, known_method. intros Hmodel Hmethod.
  unfold __init__, _print_args, bind, log, from_pretrained, construct_model,
    emit, raise, ret.
  destruct Hmodel as [-> | ->], Hmethod as [-> | ->]; cbn [String.eqb Ascii.eqb Bool.eqb];
    norm_world;
    destruct (String.eqb (device_type args) "cuda"); norm_world;
    do 3 eexists; (split; [reflexivity|]); (split; [reflexivity|]);
    norm_world; repeat rewrite <- app_assoc; (split; [reflexivity|]); reflexivity.
Qed.


(** ** The best snapshot *)

Lemma Qltb_lt (x y : Q) : Qltb x y = true <-> (x < y)%Q.
Proof.
  unfold Qltb. rewrite negb_true_iff. split; intro H.
  - apply Qnot_le_lt. intro Hle. apply Qle_bool_iff in Hle. congruence.
  - destruct (Qle_bool y x) eqn:E; [|reflexivity].
    apply Qle_bool_iff in E. exfalso. apply (Qlt_not_le _ _ H E).
Qed.

Lemma improves_iff (b r : Q * Q) :
  improves b r = true <->
  (snd b < snd r)%Q \/ ((snd r == snd b)%Q /\ (fst r < fst b)%Q).
Proof.
  destruct b as [bl ba], r as [rl ra]. unfold improves. simpl.
  now rewrite orb_true_iff, andb_true_iff, !Qltb_lt, Qeq_bool_iff.
Qed.

Lemma update_best_cases (b r : Q * Q) :
  (improves b r = true /\ update_best b r = r) \/
  (improves b r = false /\ update_best b r = b).
Proof. unfold update_best. destruct (improves b r); auto. Qed.

Lemma dominated_refl (b : Q * Q) : dominated b b.
Proof. right. split; [reflexivity | apply Qle_refl]. Qed.

Lemma dominated_trans (a b c : Q * Q) :
  dominated a b -> dominated b c -> dominated a c.
Proof.
  unfold dominated. intros [H1 | [H1 H1']] [H2 | [H2 H2']].
  - left. lra.
  - left. lra.
  - left. lra.
  - right. split; lra.
Qed.

Lemma update_best_dominates (b r : Q * Q) :
  dominated b (update_best b r) /\ dominated r (update_best b r).
Proof.
  destruct (update_best_cases b r) as [[Hi ->] | [Hi ->]].
  - split; [|apply dominated_refl].
    apply improves_iff in Hi. unfold dominated.
    destruct Hi as [H | [H H']]; [left; lra | right; split; lra].
  - split; [apply dominated_refl|].
    assert (Hn : ~ ((snd b < snd r)%Q \/ ((snd r == snd b)%Q /\ (fst r < fst b)%Q))).
    { rewrite <- improves_iff. congruence. }
    unfold dominated.
    destruct (Qlt_le_dec (snd r) (snd b)) as [Hlt | Hle]; [now left|].
    right.
    assert (Hge : (snd r <= snd b)%Q).
    { apply Qnot_lt_le. intro H. apply Hn. now left. }
    assert (Heq : (snd r == snd b)%Q) by lra.
    split; [exact Heq|].
    apply Qnot_lt_le. intro H. apply Hn. right. now split.
Qed.

Lemma fold_best_spec (rs : list (Q * Q)) :
  forall b0 : Q * Q,
    let b := fold_left update_best rs b0 in
    dominated b0 b /\ (forall r, In r rs -> dominated r b) /\ (b = b0 \/ In b rs).
Proof.
  induction rs as [|r rs IH]; intros b0; simpl.
  - split; [apply dominated_refl|]. split; [tauto | now left].
  - destruct (IH (update_best b0 r)) as (Hd & Hall & Hin).
    destruct (update_best_dominates b0 r) as [Hb Hr].
    split; [eapply dominated_trans; eassumption|].
    split.
    + intros r' [<- | Hr']; [eapply dominated_trans; eassumption | auto].
    + destruct Hin as [-> | Hin]; [|auto].
      destruct (update_best_cases b0 r) as [[_ ->] | [_ ->]]; auto.
Qed.

(** With a result that beats the initial [(0, 0)], the final snapshot is
    one of the results and no result is better. *)
Lemma final_best_maximal (rs : list (Q * Q)) :
  (exists r, In r rs /\ improves best_init r = true) ->
  In (final_best rs) rs /\ forall r, In r rs -> dominated r (final_best rs).
Proof.
  intros (r & Hr & Hi). unfold final_best.
  destruct (fold_best_spec rs best_init) as (_ & Hall & Hin).
  split; [|exact Hall].
  destruct Hin as [Heq | Hin]; [|exact Hin]. exfalso.
  specialize (Hall r Hr). rewrite Heq in Hall.
  apply improves_iff in Hi. unfold dominated in Hall.
  destruct Hi as [H | [H H']], Hall as [H2 | [H2 H2']]; lra.
Qed.

(** Without one, the initial pair stays. *)
Lemma final_best_stuck (rs : list (Q * Q)) :
  (forall r, In r rs -> improves best_init r = false) ->
  final_best rs = best_init.
Proof.
  unfold final_best. generalize best_init as b0.
  induction rs as [|r rs IH]; intros b0 Hno; simpl; [reflexivity|].
  unfold update_best at 2. rewrite (Hno r (or_introl eq_refl)).
  apply IH. intros r' Hr'. apply Hno. now right.
Qed.

Lemma fold_best_acc_mono (rs : list (Q * Q)) (b0 : Q * Q) :
  (snd b0 <= snd (fold_left update_best rs b0))%Q.
Proof.
  destruct (fold_best_spec rs b0) as ([H | [H _]] & _); lra.
Qed.


Lemma for_each_app {A St} (body : A -> St -> M St) (l1 l2 : list A) :
  forall (s : St) (w : World),
    for_each body (l1 ++ l2) s w = bind (for_each body l1 s) (for_each body l2) w.
Proof.
  induction l1 as [|a l1 IH]; intros s w; simpl.
  - reflexivity.
  - unfold bind in *. destruct (body a s w) as [[s1 | e] w1].
    + apply IH.
    + reflexivity.
Qed.

Lemma epoch_body_best (args : Args) (train test : list Batch)
    (epoch : nat) (s s1 : Locals) (w w1 : World) :
  epoch_body args train test epoch s w = (Ok s1, w1) ->
  exists r, best s1 = update_best (best s) r.
Proof.
  unfold epoch_body, bind.
  destruct (_train train w) as [[[tl ta] | e] w']; [|discriminate].
  destruct (_test test w') as [[[l a] | e] w'']; [|discriminate].
  destruct (truediv _ _ w'') as [[pc | e] w3]; [|discriminate].
  unfold log, emit, ret. intro H. inversion H. exists (l, a). reflexivity.
Qed.

Lemma epoch_loop_best (args : Args) (train test : list Batch) (es : list nat) :
  forall (s s' : Locals) (w w' : World),
    for_each (epoch_body args train test) es s w = (Ok s', w') ->
    exists rs, best s' = fold_left update_best rs (best s).
Proof.
  induction es as [|epoch es IH]; intros s s' w w'; simpl.
  - unfold ret. intro H. inversion H. exists []. reflexivity.
  - unfold bind.
    destruct (epoch_body args train test epoch s w) as [[s1 | e] w1] eqn:E;
      [|discriminate].
    intro H. destruct (epoch_body_best _ _ _ _ _ _ _ _ E) as [r Hr].
    destruct (IH _ _ _ _ H) as [rs Hrs].
    exists (r :: rs). simpl. now rewrite <- Hr.
Qed.


(** What [_test] returns and leaves behind, whatever the stream. *)
Lemma _test_spec (dl : list Batch) (w : World) :
  exists loss_sum w' tr,
    _test dl w =
      (if Nat.eqb (total_samples dl) 0 then Raise ZeroDivisionError
       else Ok ((loss_sum / of_int (total_samples dl))%Q,
                (of_int (correct_total (forwards tr) (map snd dl))
                 / of_int (total_samples dl))%Q), w') /\
    trace w' = trace w ++ [EvModelEval; EvNoGradEnter] ++ tr ++ [EvNoGradExit] /\
    map kind tr = flat_map (fun _ => test_kinds) dl /\
    List.length (criteria tr) = List.length dl /\
    List.length (forwards tr) = List.length dl /\
    (loss_sum == weighted_sum (criteria tr) (map batch_size dl))%Q /\
    model w' = mkModel (params (model w)) (grads (model w)) false /\
    optimizer w' = optimizer w /\ scheduler w' = scheduler w /\
    rng w' = rng w /\ grad_enabled w' = grad_enabled w.
Proof.
  rewrite _test_eval. unfold test_outcome, test_events.
  destruct (test_pass_spec (params (model w)) false dl (0%Q, 0, 0))
    as (Hk & Hc & Hf & _ & Hloss & Hcorr & Hn).
  destruct (test_pass (params (model w)) false dl (0%Q, 0, 0))
    as [[[tl nc] n] tr]. simpl in Hk, Hc, Hf, Hloss, Hcorr, Hn. subst nc n.
  exists tl. eexists. exists tr.
  split; [reflexivity|]. norm_world.
  repeat split; auto.
  - now rewrite Hc, length_map.
  - now rewrite Hf, length_map.
  - rewrite Hloss. ring.
Qed.

Lemma total_samples_targets (dl : list Batch) :
  list_sum (map (@List.length nat) (map snd dl)) = total_samples dl.
Proof. unfold total_samples, batch_size. now rewrite map_map. Qed.

(** A stream of batches, none of them empty, holds a sample as soon as it
    holds a batch. *)
Lemma nonempty_stream_has_samples (dl : list Batch) :
  dl <> [] -> Forall (fun b => 0 < batch_size b) dl -> 0 < total_samples dl.
Proof.
  intros Hne Hall. destruct dl as [|b dl]; [congruence|].
  inversion Hall; subst. unfold total_samples. simpl. lia.
Qed.

(** * The claims *)

(** C2 (as amended): a pass of the Training Loop or of the Evaluation Loop
    returns a (mean loss, accuracy) pair exactly when the stream holds at
    least one sample; on a stream without samples, the empty stream among
    them, the division by the accumulated sample count raises
    ZeroDivisionError. *)
Theorem pass_returns_iff_samples (dl : list Batch) (w : World) :
  ((exists r, fst (_train dl w) = Ok r) <-> 0 < total_samples dl) /\
  (fst (_train dl w) = Raise ZeroDivisionError <-> total_samples dl = 0) /\
  ((exists r, fst (_test dl w) = Ok r) <-> 0 < total_samples dl) /\
  (fst (_test dl w) = Raise ZeroDivisionError <-> total_samples dl = 0).
Proof.
  destruct (_train_spec dl w) as (ls & w1 & tr1 & H1 & _).
  destruct (_test_spec dl w) as (ls2 & w2 & tr2 & H2 & _).
  rewrite H1, H2. simpl.
  destruct (Nat.eqb (total_samples dl) 0) eqn:E.
  - apply Nat.eqb_eq in E. rewrite E.
    repeat split; try (intros [r Hr]; discriminate); try lia; auto.
  - apply Nat.eqb_neq in E.
    repeat split; try discriminate; try lia; intros; eexists; reflexivity.
Qed.

(** C3: on a stream with at least one sample (every non-empty stream of
    non-empty batches), the mean loss returned by a Training Loop pass and
    by an Evaluation Loop pass is sum(l_i * b_i) / sum(b_i), where the l_i
    are the losses the criterion returned for the batches of the pass, in
    order, and the b_i the batch sizes. *)
Theorem mean_loss_weighted (dl : list Batch) (w : World) :
  0 < total_samples dl ->
  (exists loss acc w' tr,
     _train dl w = (Ok (loss, acc), w') /\
     trace w' = trace w ++ tr /\
     List.length (criteria tr) = List.length dl /\
     (loss == weighted_sum (criteria tr) (map batch_size dl)
              / of_int (list_sum (map batch_size dl)))%Q) /\
  (exists loss acc w' tr,
     _test dl w = (Ok (loss, acc), w') /\
     trace w' = trace w ++ tr /\
     List.length (criteria tr) = List.length dl /\
     (loss == weighted_sum (criteria tr) (map batch_size dl)
              / of_int (list_sum (map batch_size dl)))%Q).
Proof.
  intro Hpos. fold (total_samples dl).
  assert (E : Nat.eqb (total_samples dl) 0 = false) by (apply Nat.eqb_neq; lia).
  split.
  - destruct (_train_spec dl w) as (ls & w1 & tr & H & Htr & _ & Hc & _ & Hloss & _).
    rewrite E in H. do 3 eexists. exists (EvModelTrain :: tr).
    split; [exact H|]. split; [exact Htr|]. split; [exact Hc|].
    now rewrite Hloss.
  - destruct (_test_spec dl w) as (ls & w1 & tr & H & Htr & _ & Hc & _ & Hloss & _).
    rewrite E in H. do 3 eexists. exists ([EvModelEval; EvNoGradEnter] ++ tr ++ [EvNoGradExit]).
    split; [exact H|]. split; [exact Htr|].
    assert (Hcr : criteria ([EvModelEval; EvNoGradEnter] ++ tr ++ [EvNoGradExit]) = criteria tr).
    { simpl. clear. induction tr as [|e tr IH]; [reflexivity|].
      destruct e; simpl; now rewrite ?IH. }
    rewrite Hcr. split; [exact Hc|]. now rewrite Hloss.
Qed.

(** C4: on a stream with at least one sample, the accuracy returned by the
    Training Loop and by the Evaluation Loop is n_correct / n, where
    n_correct counts the rows whose argmax is the target and never exceeds
    the number n of samples seen, so the accuracy lies in [0, 1]. *)
Theorem accuracy_in_unit_interval (dl : list Batch) (w : World) :
  0 < total_samples dl ->
  (exists loss acc w' tr,
     _train dl w = (Ok (loss, acc), w') /\
     trace w' = trace w ++ EvModelTrain :: tr /\
     acc = (of_int (correct_total (forwards tr) (map snd dl))
            / of_int (total_samples dl))%Q /\
     correct_total (forwards tr) (map snd dl) <= total_samples dl /\
     (0 <= acc)%Q /\ (acc <= 1)%Q) /\
  (exists loss acc w' tr,
     _test dl w = (Ok (loss, acc), w') /\
     trace w' = trace w ++ [EvModelEval; EvNoGradEnter] ++ tr ++ [EvNoGradExit] /\
     acc = (of_int (correct_total (forwards tr) (map snd dl))
            / of_int (total_samples dl))%Q /\
     correct_total (forwards tr) (map snd dl) <= total_samples dl /\
     (0 <= acc)%Q /\ (acc <= 1)%Q).
Proof.
  intro Hpos.
  assert (E : Nat.eqb (total_samples dl) 0 = false) by (apply Nat.eqb_neq; lia).
  split.
  - destruct (_train_spec dl w) as (ls & w1 & tr & H & Htr & _).
    rewrite E in H. do 3 eexists. exists tr.
    pose proof (correct_total_le (forwards tr) (map snd dl)) as Hle.
    rewrite total_samples_targets in Hle.
    destruct (ratio_unit _ _ Hle Hpos).
    repeat split; eauto.
  - destruct (_test_spec dl w) as (ls & w1 & tr & H & Htr & _).
    rewrite E in H. do 3 eexists. exists tr.
    pose proof (correct_total_le (forwards tr) (map snd dl)) as Hle.
    rewrite total_samples_targets in Hle.
    destruct (ratio_unit _ _ Hle Hpos).
    repeat split; eauto.
Qed.


(** C5: with a model_name outside {bert, roberta} or a method_name outside
    {fnn, lstm}, construction raises ValueError, the script ends with that
    same error in that same state, and nothing it did up to there is a
    call of load_data; with both names recognised, construction returns
    the instructor and raises nothing. *)
Theorem unknown_names_raise_before_loading (args : Args) (w : World) :
  (~ known_model (model_name args) \/ ~ known_method (method_name args) ->
   exists msg w' tr,
     __init__ args w = (Raise (ValueError msg), w') /\
     main args w = (Raise (ValueError msg), w') /\
     trace w' = trace w ++ tr /\
     count_kind KLoadData tr = 0) /\
  (known_model (model_name args) -> known_method (method_name args) ->
   exists self w', __init__ args w = (Ok self, w') /\ self_args self = args).
Proof.
  split.
  - intro Hbad. destruct (init_unknown args w Hbad) as (msg & w' & tr & H & Htr & Hc).
    exists msg, w', tr. repeat split; auto.
    unfold main. now apply bind_Raise.
  - intros Hm Hh. destruct (init_known args w Hm Hh) as (self & w' & tr & H & Ha & _).
    eauto.
Qed.

(** C6: a Training Loop pass switches the model to training mode and then,
    for each batch in stream order, moves the inputs and the targets to
    the device, calls the model, calls the criterion, zeroes the
    gradients, back-propagates, steps the optimizer, steps the scheduler
    and only then adds to the running totals; it makes no other call. *)
Theorem train_batch_order (dl : list Batch) (w : World) :
  exists tr,
    trace (snd (_train dl w)) = trace w ++ EvModelTrain :: tr /\
    map kind tr =
      flat_map (fun _ =>
        [KToDevice; KToDevice; KForward; KCriterion;
         KZeroGrad; KBackward; KOptimizerStep; KSchedulerStep; KAccumulate]) dl.
Proof.
  destruct (_train_spec dl w) as (ls & w' & tr & H & Htr & Hk & _).
  exists tr. rewrite H. simpl. split; assumption.
Qed.

(** C7: an Evaluation Loop pass leaves the parameters, their gradients,
    the optimizer, the scheduler and the random generator as they were;
    every model call of the pass runs in evaluation mode with gradient
    tracking off, and the pass makes no backward, optimizer or scheduler
    call; a second pass right after the first returns the same result and
    makes the same calls with the same logits. *)
Theorem test_is_pure (dl : list Batch) (w : World) :
  let first := _test dl w in
  let second := _test dl (snd first) in
  params (model (snd first)) = params (model w) /\
  grads (model (snd first)) = grads (model w) /\
  optimizer (snd first) = optimizer w /\
  scheduler (snd first) = scheduler w /\
  rng (snd first) = rng w /\
  params (model (snd second)) = params (model w) /\
  fst second = fst first /\
  exists tr,
    trace (snd first) = trace w ++ tr /\
    trace (snd second) = trace (snd first) ++ tr /\
    List.length (forwards tr) = List.length dl /\
    forward_modes tr = map (fun _ => (false, false)) dl /\
    count_kind KZeroGrad tr = 0 /\
    count_kind KBackward tr = 0 /\
    count_kind KOptimizerStep tr = 0 /\
    count_kind KSchedulerStep tr = 0.
Proof.
  cbv zeta. rewrite !_test_eval. norm_world.
  repeat split.
  exists (test_events (params (model w)) dl).
  destruct (test_events_quiet (params (model w)) dl) as (_ & Hs & Ho & Hb & Hz).
  destruct (test_pass_spec (params (model w)) false dl (0%Q, 0, 0))
    as (_ & _ & Hf & Hm & _).
  assert (Hfw : forall t, forwards (t ++ [EvNoGradExit]) = forwards t).
  { induction t as [|e t IH]; [reflexivity|]. destruct e; simpl; now rewrite ?IH. }
  assert (Hmd : forall t, forward_modes (t ++ [EvNoGradExit]) = forward_modes t).
  { induction t as [|e t IH]; [reflexivity|]. destruct e; simpl; now rewrite ?IH. }
  repeat split; auto.
  - unfold test_events. simpl. now rewrite Hfw, Hf, length_map.
  - unfold test_events. simpl. now rewrite Hmd.
Qed.

(** C8: a run that is asked for no epoch, or whose two splits hold a
    sample, completes; after the epoch loop it logs the best snapshot,
    then plots the epoch indices 0 .. num_epoch-1 against the test
    accuracies of the epochs in epoch order, and saves the figure as
    image.png; image.png is the only file the run writes. *)
Theorem run_persists_only_plot (self : Self) (w : World) :
  run_ready self ->
  exists w' body,
    run self w = (Ok tt, w') /\
    trace w' =
      trace w ++ body ++
      [EvLog (LogBest (fst (final_best (test_results body)))
                      (snd (final_best (test_results body))));
       EvLog (LogSaved (log_name (self_args self)));
       EvPlot (seq 0 (num_epoch (self_args self))) (map snd (test_results body));
       EvYLabel "accuracy"; EvXLabel "epoch"; EvSaveFig "image.png"; EvShow] /\
    List.length (test_results body) = num_epoch (self_args self) /\
    persisted body = [] /\
    persisted (skipn (List.length (trace w)) (trace w')) = ["image.png"].
Proof.
  intro Hready.
  destruct (run_spec self w Hready) as (w' & tr & H & Htr & Hlen & Hper & _).
  cbv zeta in Htr.
  set (pre := [EvLoadData; _; _]) in Htr.
  exists w', (pre ++ tr).
  assert (Hres : test_results (pre ++ tr) = test_results tr).
  { now rewrite test_results_app. }
  assert (Hpb : persisted (pre ++ tr) = []).
  { rewrite persisted_app, Hper. reflexivity. }
  rewrite Hres.
  assert (Htr' : trace w' = trace w ++ (pre ++ tr) ++
            report (self_args self) (final_best (test_results tr))
              (seq 0 (num_epoch (self_args self))) (map snd (test_results tr))).
  { rewrite Htr. unfold final_best. now rewrite <- app_assoc. }
  split; [exact H|]. split; [exact Htr'|]. split; [exact Hlen|]. split; [exact Hpb|].
  rewrite Htr', skipn_app, skipn_all, Nat.sub_diag, skipn_O, app_nil_l.
  now rewrite persisted_app, Hpb.
Qed.

(** C9: over such a run the scheduler is built with
    num_warmup_steps = 0.1 * len(train_dataloader) and
    num_training_steps = len(train_dataloader) * num_epoch, it is stepped
    once per optimizer step, len(train_dataloader) * num_epoch times in
    all, and its step counter ends at num_training_steps. *)
Theorem schedule_steps_match (self : Self) (w : World) :
  run_ready self ->
  let batches := List.length (fst (loaders self)) in
  let total := batches * num_epoch (self_args self) in
  exists w' tr,
    run self w = (Ok tt, w') /\
    trace w' = trace w ++ tr /\
    count_kind KSchedulerStep tr = total /\
    count_kind KOptimizerStep tr = total /\
    count_kind KMakeScheduler tr = 1 /\
    In (EvMakeScheduler ((1 # 10) * of_int batches)%Q total) tr /\
    num_warmup_steps (scheduler w') = ((1 # 10) * of_int batches)%Q /\
    num_training_steps (scheduler w') = total /\
    last_epoch (scheduler w') = num_training_steps (scheduler w').
Proof.
  intros Hready batches total.
  destruct (run_spec self w Hready)
    as (w' & tr & H & Htr & Hlen & Hper & Hload & Hmk & Hs & Ho & Hsched).
  cbv zeta in Htr, Hs, Ho, Hsched. fold batches in Htr, Hs, Ho, Hsched.
  fold total in Htr, Hs, Ho, Hsched.
  eexists w', _. split; [exact H|]. split; [exact Htr|].
  rewrite !count_kind_app, Hs, Ho, Hmk, Hsched.
  unfold count_kind. simpl.
  repeat split; auto; lia.
Qed.


(** C10: in every run the stored best accuracy never decreases: whenever
    the epoch loop has reached the end of epoch i and later the end of
    epoch j, best_acc at j is at least best_acc at i. *)
Theorem best_acc_monotone (args : Args) (train test : list Batch)
    (i j : nat) (s0 si sj : Locals) (w wi wj : World) :
  i <= j ->
  for_each (epoch_body args train test) (seq 0 i) s0 w = (Ok si, wi) ->
  for_each (epoch_body args train test) (seq 0 j) s0 w = (Ok sj, wj) ->
  (snd (best si) <= snd (best sj))%Q.
Proof.
  intros Hij Hi Hj.
  replace j with (i + (j - i)) in Hj by lia.
  rewrite seq_app, for_each_app in Hj.
  rewrite (bind_Ok _ _ _ _ _ Hi) in Hj.
  destruct (epoch_loop_best _ _ _ _ _ _ _ _ Hj) as [rs ->].
  apply fold_best_acc_mono.
Qed.

(** * Further properties of the loops and of the run *)

(** An accuracy between 0 and 1. *)
Definition in_unit (r : Q * Q) : Prop := (0 <= snd r)%Q /\ (snd r <= 1)%Q.

Lemma test_outcome_acc (p : Params) (dl : list Batch) (tl ta : Q) :
  test_outcome p dl = Ok (tl, ta) -> (0 <= ta)%Q /\ (ta <= 1)%Q.
Proof.
  unfold test_outcome.
  destruct (test_pass_spec p false dl (0%Q, 0, 0)) as (_ & _ & _ & _ & _ & Hc & Hn).
  destruct (test_pass p false dl (0%Q, 0, 0)) as [[[ls nc] n] tr]. simpl in Hc, Hn.
  cbn [fst]. destruct (Nat.eqb n 0) eqn:E; [discriminate|].
  intro H. inversion H; subst. apply Nat.eqb_neq in E.
  apply ratio_unit; [|lia].
  pose proof (correct_total_le (forwards tr) (map snd dl)) as Hle.
  rewrite total_samples_targets in Hle. lia.
Qed.

Lemma train_kinds_no_plot (A : Type) (dl : list A) (tr : list Event) :
  map kind tr = flat_map (fun _ => train_kinds) dl ->
  count_kind KPlot tr = 0 /\ count_kind KModelEval tr = 0.
Proof.
  intro Hk. rewrite !count_kind_kinds, Hk, !filter_flat_const. simpl. lia.
Qed.

Lemma test_events_no_plot (p : Params) (dl : list Batch) :
  count_kind KPlot (test_events p dl) = 0.
Proof.
  unfold test_events.
  destruct (test_pass_spec p false dl (0%Q, 0, 0)) as (Hk & _).
  change (EvModelEval :: EvNoGradEnter :: ?t ++ ?u)
    with ([EvModelEval; EvNoGradEnter] ++ t ++ u).
  rewrite !count_kind_app, !(count_kind_kinds _ (snd _)), Hk, !filter_flat_const.
  unfold count_kind. simpl. lia.
Qed.

(** Whatever its outcome, one epoch writes no file, plots nothing and
    logs test accuracies between 0 and 1 only. *)
Lemma epoch_body_any (args : Args) (train test : list Batch)
    (epoch : nat) (s : Locals) (w : World) :
  exists tr,
    trace (snd (epoch_body args train test epoch s w)) = trace w ++ tr /\
    persisted tr = [] /\ count_kind KPlot tr = 0 /\
    Forall in_unit (test_results tr).
Proof.
  destruct (_train_spec train w) as (ls & w1 & tr1 & Hrun & Htr & Hk & _).
  destruct (train_kinds_quiet _ train tr1 Hk) as ((Q1 & Q2 & Q3 & _) & _).
  destruct (train_kinds_no_plot _ train tr1 Hk) as (P1 & _).
  destruct (test_events_quiet (params (model w1)) test) as ((T1 & T2 & T3 & _) & _).
  pose proof (test_events_no_plot (params (model w1)) test) as P2.
  pose proof (no_log_no_results tr1 Q1) as R1.
  pose proof (no_log_no_results _ T1) as R2.
  pose proof (no_save_no_persisted tr1 Q2 Q3) as S1.
  pose proof (no_save_no_persisted _ T2 T3) as S2.
  unfold epoch_body.
  destruct (Nat.eqb (total_samples train) 0).
  - rewrite (bind_Raise _ _ _ _ _ Hrun). cbn [snd].
    exists ([EvModelTrain] ++ tr1). split; [exact Htr|].
    rewrite persisted_app, count_kind_app, test_results_app, S1, P1, R1.
    repeat split. constructor.
  - rewrite (bind_Ok _ _ _ _ _ Hrun). cbv beta iota.
    unfold bind at 1. rewrite _test_eval.
    destruct (test_outcome (params (model w1)) test) as [[tl ta] | e] eqn:E.
    + pose proof (test_outcome_acc _ _ _ _ E) as Hacc.
      unfold bind, truediv, log, emit, raise, ret.
      destruct (Nat.eqb (num_epoch args) 0); norm_world; cbn [snd]; norm_world.
      * exists (([EvModelTrain] ++ tr1) ++ test_events (params (model w1)) test).
        split; [rewrite Htr, <- !app_assoc; reflexivity|].
        rewrite !persisted_app, !count_kind_app, !test_results_app, S1, S2, P1, P2, R1, R2.
        repeat split. constructor.
      * exists (([EvModelTrain] ++ tr1) ++ test_events (params (model w1)) test ++
                [EvLog (LogProgress (epoch + 1) (num_epoch args));
                 EvLog (LogTrain (ls / of_int (total_samples train))
                          (of_int (correct_total (forwards tr1) (map snd train))
                           / of_int (total_samples train)));
                 EvLog (LogTest tl ta)]).
        split; [rewrite Htr, <- !app_assoc; reflexivity|].
        rewrite !persisted_app, !count_kind_app, !test_results_app, S1, S2, P1, P2, R1, R2.
        repeat split. simpl. constructor; [exact Hacc | constructor].
    + cbn [snd]. norm_world.
      exists (([EvModelTrain] ++ tr1) ++ test_events (params (model w1)) test).
      split; [rewrite Htr, <- !app_assoc; reflexivity|].
      rewrite !persisted_app, !count_kind_app, !test_results_app, S1, S2, P1, P2, R1, R2.
      repeat split. constructor.
Qed.

Lemma epoch_loop_any (args : Args) (train test : list Batch) (es : list nat) :
  forall (s : Locals) (w : World),
  exists tr,
    trace (snd (for_each (epoch_body args train test) es s w)) = trace w ++ tr /\
    persisted tr = [] /\ count_kind KPlot tr = 0 /\
    Forall in_unit (test_results tr).
Proof.
  induction es as [|epoch es IH]; intros s w.
  - exists []. simpl. rewrite app_nil_r. repeat split. constructor.
  - destruct (epoch_body_any args train test epoch s w) as (tr1 & Htr1 & S1 & P1 & R1).
    simpl. unfold bind.
    destruct (epoch_body args train test epoch s w) as [[s1 | e] w1]; cbn [snd] in *.
    + destruct (IH s1 w1) as (tr2 & Htr2 & S2 & P2 & R2).
      exists (tr1 ++ tr2). split; [rewrite Htr2, Htr1, app_assoc; reflexivity|].
      rewrite persisted_app, count_kind_app, test_results_app, S1, S2, P1, P2.
      repeat split. apply Forall_app. split; assumption.
    + exists tr1. repeat split; assumption.
Qed.

(** The first epoch on a training split without samples, and on a test
    split without samples. *)
Lemma epoch_body_train_fails (args : Args) (train test : list Batch)
    (epoch : nat) (s : Locals) (w : World) :
  total_samples train = 0 ->
  exists w' tr,
    epoch_body args train test epoch s w = (Raise ZeroDivisionError, w') /\
    trace w' = trace w ++ tr /\
    persisted tr = [] /\ count_kind KPlot tr = 0 /\ count_kind KLog tr = 0 /\
    count_kind KLoadData tr = 0 /\
    count_kind KModelEval tr = 0 /\
    count_kind KOptimizerStep tr = List.length train.
Proof.
  intro Hz.
  destruct (_train_spec train w) as (ls & w1 & tr1 & Hrun & Htr & Hk & _).
  rewrite Hz in Hrun. cbn [Nat.eqb] in Hrun.
  destruct (train_kinds_quiet _ train tr1 Hk) as ((Q1 & Q2 & Q3 & Q4 & _) & _ & Ho).
  destruct (train_kinds_no_plot _ train tr1 Hk) as (P1 & E1).
  exists w1, ([EvModelTrain] ++ tr1).
  split; [unfold epoch_body; now apply bind_Raise|].
  split; [exact Htr|].
  rewrite persisted_app, !count_kind_app, (no_save_no_persisted tr1 Q2 Q3),
    P1, Q1, Q4, E1, Ho.
  repeat split.
Qed.

Lemma epoch_body_test_fails (args : Args) (train test : list Batch)
    (epoch : nat) (s : Locals) (w : World) :
  0 < total_samples train -> total_samples test = 0 ->
  exists w' tr,
    epoch_body args train test epoch s w = (Raise ZeroDivisionError, w') /\
    trace w' = trace w ++ tr /\
    persisted tr = [] /\ count_kind KPlot tr = 0 /\ count_kind KLog tr = 0 /\
    count_kind KLoadData tr = 0 /\
    count_kind KModelEval tr = 1 /\
    count_kind KOptimizerStep tr = List.length train.
Proof.
  intros Hpos Hz.
  destruct (_train_spec train w) as (ls & w1 & tr1 & Hrun & Htr & Hk & _).
  apply Nat.neq_0_lt_0, Nat.eqb_neq in Hpos. rewrite Hpos in Hrun.
  destruct (train_kinds_quiet _ train tr1 Hk) as ((Q1 & Q2 & Q3 & Q4 & _) & _ & Ho).
  destruct (train_kinds_no_plot _ train tr1 Hk) as (P1 & E1).
  destruct (test_events_quiet (params (model w1)) test)
    as ((T1 & T2 & T3 & T4 & _) & _ & To & _).
  pose proof (test_events_no_plot (params (model w1)) test) as P2.
  assert (E2 : count_kind KModelEval (test_events (params (model w1)) test) = 1).
  { unfold test_events.
    destruct (test_pass_spec (params (model w1)) false test (0%Q, 0, 0)) as (Hk2 & _).
    change (EvModelEval :: EvNoGradEnter :: ?t ++ ?u)
      with ([EvModelEval; EvNoGradEnter] ++ t ++ u).
    rewrite !count_kind_app, !(count_kind_kinds _ (snd _)), Hk2, !filter_flat_const.
    unfold count_kind. simpl. lia. }
  assert (Hout : test_outcome (params (model w1)) test = Raise ZeroDivisionError).
  { unfold test_outcome.
    destruct (test_pass_spec (params (model w1)) false test (0%Q, 0, 0))
      as (_ & _ & _ & _ & _ & _ & Hn).
    destruct (test_pass (params (model w1)) false test (0%Q, 0, 0)) as [[[tl nc] n] tr2].
    simpl in Hn. cbn [fst]. rewrite Hn, Hz. reflexivity. }
  eexists. exists (([EvModelTrain] ++ tr1) ++ test_events (params (model w1)) test).
  split.
  { unfold epoch_body. rewrite (bind_Ok _ _ _ _ _ Hrun). cbv beta iota.
    apply bind_Raise. rewrite _test_eval, Hout. reflexivity. }
  norm_world.
  split; [rewrite Htr, <- !app_assoc; reflexivity|].
  rewrite !persisted_app, !count_kind_app, (no_save_no_persisted tr1 Q2 Q3),
    (no_save_no_persisted _ T2 T3), P1, P2, Q1, T1, Q4, T4, E1, E2, Ho, To.
  unfold count_kind. simpl. repeat split; lia.
Qed.

(** A run that is asked for an epoch on a split without samples. *)
Lemma run_fails (self : Self) (w : World) :
  num_epoch (self_args self) <> 0 ->
  total_samples (fst (loaders self)) = 0 \/
  (0 < total_samples (fst (loaders self)) /\ total_samples (snd (loaders self)) = 0) ->
  exists w' tr,
    run self w = (Raise ZeroDivisionError, w') /\
    trace w' = trace w ++ tr /\
    persisted tr = [] /\ count_kind KPlot tr = 0 /\ count_kind KLog tr = 0 /\
    count_kind KLoadData tr = 1 /\
    (total_samples (fst (loaders self)) = 0 -> count_kind KModelEval tr = 0) /\
    (0 < total_samples (fst (loaders self)) -> count_kind KModelEval tr = 1) /\
    count_kind KOptimizerStep tr = List.length (fst (loaders self)).
Proof.
  intros Hn Hbad.
  unfold run. set (args := self_args self) in *.
  erewrite bind_Ok by reflexivity. cbv beta.
  change (load_data _ _ _ _ _ _ _ _) with (loaders self).
  destruct (loaders self) as [train test]. cbv beta iota.
  unfold fst, snd in Hbad |- *.
  erewrite bind_Ok by reflexivity. norm_world.
  erewrite bind_Ok by reflexivity. norm_world.
  destruct (num_epoch args) as [|n] eqn:En; [congruence|].
  cbn [seq for_each].
  match goal with
  | |- context [bind (bind (epoch_body ?a _ _ ?e ?s0) _) _ ?w0] =>
      assert (Hbody : exists w' tr,
                epoch_body a train test e s0 w0 = (Raise ZeroDivisionError, w') /\
                trace w' = trace w0 ++ tr /\
                persisted tr = [] /\ count_kind KPlot tr = 0 /\ count_kind KLog tr = 0 /\
                count_kind KLoadData tr = 0 /\
                (total_samples train = 0 -> count_kind KModelEval tr = 0) /\
                (0 < total_samples train -> count_kind KModelEval tr = 1) /\
                count_kind KOptimizerStep tr = List.length train)
  end.
  { destruct Hbad as [Hz | [Hpos Hz]].
    - match goal with
      | |- exists w' tr, epoch_body ?a _ _ ?e ?s0 ?w0 = _ /\ _ =>
          destruct (epoch_body_train_fails a train test e s0 w0 Hz)
            as (w' & tr & H1 & H2 & H3 & H4 & H5 & H5' & H6 & H7)
      end.
      exists w', tr. repeat split; auto. lia.
    - match goal with
      | |- exists w' tr, epoch_body ?a _ _ ?e ?s0 ?w0 = _ /\ _ =>
          destruct (epoch_body_test_fails a train test e s0 w0 Hpos Hz)
            as (w' & tr & H1 & H2 & H3 & H4 & H5 & H5' & H6 & H7)
      end.
      exists w', tr. repeat split; auto. lia. }
  destruct Hbody as (w' & tr & H1 & H2 & H3 & H4 & H5 & H5' & H6 & H7 & H8).
  exists w', ([EvLoadData; EvMakeOptimizer (lr args) (decay args) (eps args);
               EvMakeScheduler ((1 # 10) * of_int (List.length train))%Q
                 (List.length train * S n)] ++ tr).
  split.
  { apply bind_Raise. apply bind_Raise. exact H1. }
  norm_world.
  split; [rewrite H2, <- !app_assoc; reflexivity|].
  rewrite persisted_app, !count_kind_app, H3, H4, H5, H5', H8.
  unfold count_kind. simpl.
  repeat split; auto.
Qed.

(** X1: [run] completes exactly when it is asked for no epoch or both
    splits hold a sample; there is no other way for it to return. *)
Theorem run_completes_iff_ready (self : Self) (w : World) :
  (exists w', run self w = (Ok tt, w')) <-> run_ready self.
Proof.
  split.
  - intros [w' Hrun]. unfold run_ready.
    destruct (Nat.eq_dec (num_epoch (self_args self)) 0) as [H0 | Hn]; [now left|].
    right.
    destruct (Nat.eq_dec (total_samples (fst (loaders self))) 0) as [Hz | Hp].
    { destruct (run_fails self w Hn (or_introl Hz)) as (w2 & tr & Hfail & _).
      rewrite Hfail in Hrun. discriminate. }
    destruct (Nat.eq_dec (total_samples (snd (loaders self))) 0) as [Hz | Hp'].
    { assert (Hpos : 0 < total_samples (fst (loaders self))) by lia.
      destruct (run_fails self w Hn (or_intror (conj Hpos Hz))) as (w2 & tr & Hfail & _).
      rewrite Hfail in Hrun. discriminate. }
    lia.
  - intro Hready. destruct (run_spec self w Hready) as (w' & tr & Hrun & _).
    exists w'. exact Hrun.
Qed.

(** X2: asked for at least one epoch on a training split without samples,
    [run] ends in ZeroDivisionError inside the first training pass: the
    data was loaded, the model was never switched to evaluation, no metric
    was logged, nothing was plotted and no file was written. *)
Theorem run_aborts_in_first_training_pass (self : Self) (w : World) :
  num_epoch (self_args self) <> 0 ->
  total_samples (fst (loaders self)) = 0 ->
  exists w' tr,
    run self w = (Raise ZeroDivisionError, w') /\
    trace w' = trace w ++ tr /\
    count_kind KLoadData tr = 1 /\
    count_kind KModelEval tr = 0 /\
    count_kind KLog tr = 0 /\
    count_kind KPlot tr = 0 /\
    persisted tr = [].
Proof.
  intros Hn Hz.
  destruct (run_fails self w Hn (or_introl Hz))
    as (w' & tr & Hrun & Htr & Hper & Hplot & Hlog & Hload & Heval & _).
  exists w', tr. repeat split; auto.
Qed.

(** X3: asked for at least one epoch on a test split without samples (the
    training split holding some), [run] ends in ZeroDivisionError only
    after the whole first training pass: the optimizer has stepped once
    per training batch, the model was switched to evaluation once, and
    still no metric was logged, nothing plotted and no file written. *)
Theorem run_aborts_after_first_training_pass (self : Self) (w : World) :
  num_epoch (self_args self) <> 0 ->
  0 < total_samples (fst (loaders self)) ->
  total_samples (snd (loaders self)) = 0 ->
  exists w' tr,
    run self w = (Raise ZeroDivisionError, w') /\
    trace w' = trace w ++ tr /\
    count_kind KOptimizerStep tr = List.length (fst (loaders self)) /\
    count_kind KModelEval tr = 1 /\
    count_kind KLog tr = 0 /\
    count_kind KPlot tr = 0 /\
    persisted tr = [].
Proof.
  intros Hn Hpos Hz.
  destruct (run_fails self w Hn (or_intror (conj Hpos Hz)))
    as (w' & tr & Hrun & Htr & Hper & Hplot & Hlog & Hload & _ & Heval & Hopt).
  exists w', tr. repeat split; auto.
Qed.

(** X4: with num_epoch = 0, [run] never calls the model: it loads the
    data, builds the optimizer and a scheduler over 0 training steps, logs
    the initial snapshot (0, 0), plots two empty series and saves
    image.png; the model and the random generator are left untouched. *)
Theorem run_without_epochs (self : Self) (w : World) :
  num_epoch (self_args self) = 0 ->
  exists w',
    run self w = (Ok tt, w') /\
    trace w' =
      trace w ++
      [EvLoadData;
       EvMakeOptimizer (lr (self_args self)) (decay (self_args self)) (eps (self_args self));
       EvMakeScheduler ((1 # 10) * of_int (List.length (fst (loaders self))))%Q 0;
       EvLog (LogBest 0 0); EvLog (LogSaved (log_name (self_args self)));
       EvPlot [] []; EvYLabel "accuracy"; EvXLabel "epoch";
       EvSaveFig "image.png"; EvShow] /\
    model w' = model w /\ rng w' = rng w /\ last_epoch (scheduler w') = 0.
Proof.
  intro H0.
  unfold run. set (args := self_args self) in *.
  erewrite bind_Ok by reflexivity. cbv beta.
  change (load_data _ _ _ _ _ _ _ _) with (loaders self).
  destruct (loaders self) as [train test]. cbv beta iota. unfold fst.
  erewrite bind_Ok by reflexivity. norm_world.
  erewrite bind_Ok by reflexivity. norm_world.
  rewrite H0, Nat.mul_0_r. cbn [seq for_each].
  erewrite bind_Ok by reflexivity.
  do 6 (erewrite bind_Ok by reflexivity; norm_world).
  unfold emit at 1. norm_world.
  eexists. split; [reflexivity|]. norm_world.
  cbn [best l_acc l_epo best_init fst snd].
  rewrite <- !app_assoc. cbn [app].
  repeat split.
Qed.

(** X5: [__init__] checks the model name first.  With an unknown model
    name it raises 'unknown model' right after its first log line, before
    anything is downloaded, whatever the method name is; with a known
    model name and an unknown method name it raises 'unknown method' only
    after the tokenizer and the base model of that checkpoint were
    loaded.  In both cases no model is installed. *)
Theorem init_checks_model_first (args : Args) (w : World) :
  (~ known_model (model_name args) ->
   __init__ args w =
     (Raise (ValueError "unknown model"),
      set_trace (trace w ++ [EvLog (LogCreating (model_name args))]) w)) /\
  (known_model (model_name args) -> ~ known_method (method_name args) ->
   exists checkpoint w',
     __init__ args w = (Raise (ValueError "unknown method"), w') /\
     trace w' =
       trace w ++ [EvLog (LogCreating (model_name args));
                   EvFromPretrained checkpoint; EvFromPretrained checkpoint] /\
     (model_name args = "bert" -> checkpoint = "bert-base-uncased") /\
     (model_name args = "roberta" -> checkpoint = "roberta-base") /\
     model w' = model w).
Proof.
  unfold known_model, known_method. split.
  - intro Hbad.
    unfold __init__, bind, log, emit, raise.
    destruct (String.eqb (model_name args) "bert") eqn:E1;
      [apply String.eqb_eq in E1; tauto|].
    destruct (String.eqb (model_name args) "roberta") eqn:E2;
      [apply String.eqb_eq in E2; tauto|].
    reflexivity.
  - intros Hmodel Hbad.
    assert (E3 : String.eqb (method_name args) "fnn" = false).
    { apply String.eqb_neq. tauto. }
    assert (E4 : String.eqb (method_name args) "lstm" = false).
    { apply String.eqb_neq. tauto. }
    unfold __init__, bind, log, from_pretrained, emit, raise, ret.
    rewrite E3, E4.
    destruct Hmodel as [Hm | Hm]; rewrite Hm; cbn [String.eqb Ascii.eqb Bool.eqb];
      norm_world.
    + exists "bert-base-uncased". eexists. split; [reflexivity|]. norm_world.
      rewrite <- !app_assoc. repeat split. discriminate.
    + exists "roberta-base". eexists. split; [reflexivity|]. norm_world.
      rewrite <- !app_assoc. repeat split. discriminate.
Qed.

(** X6: with recognised names [__init__] returns the instructor for these
    very args, having loaded the tokenizer and the base model of the named
    checkpoint (the RoBERTa tokenizer with add_prefix_space), installed
    one freshly built model of the named head in training mode, and
    logged the cuda memory line exactly when the device type is 'cuda';
    it leaves the optimizer and the scheduler alone and loads no data. *)
Theorem init_builds_named_model (args : Args) (w : World) :
  known_model (model_name args) -> known_method (method_name args) ->
  exists self w' tr,
    __init__ args w = (Ok self, w') /\
    trace w' = trace w ++ tr /\
    self_args self = args /\
    (model_name args = "bert" -> self_tokenizer self = ("bert-base-uncased", false)) /\
    (model_name args = "roberta" -> self_tokenizer self = ("roberta-base", true)) /\
    (method_name args = "fnn" -> self_head self = FNN) /\
    (method_name args = "lstm" -> self_head self = LSTM) /\
    model w' =
      mkModel (build_model (self_head self) (fst (self_tokenizer self)) (num_classes args))
              no_grads true /\
    count_kind KFromPretrained tr = 2 /\
    count_kind KBuildModel tr = 1 /\
    count_kind KLoadData tr = 0 /\
    persisted tr = [] /\
    (In (EvLog (LogCuda (device_index args))) tr <-> device_type args = "cuda") /\
    optimizer w' = optimizer w /\ scheduler w' = scheduler w.
Proof.
  unfold known_model, known_method. intros Hmodel Hmethod.
  unfold __init__, _print_args, bind, log, from_pretrained, construct_model,
    emit, raise, ret.
  destruct Hmodel as [Hm | Hm], Hmethod as [Hh | Hh]; rewrite Hm, Hh;
    cbn [String.eqb Ascii.eqb Bool.eqb]; norm_world;
    destruct (String.eqb (device_type args) "cuda") eqn:Ec; norm_world;
    do 3 eexists; (split; [reflexivity|]); norm_world;
    cbn [fst snd self_args self_tokenizer self_head];
    (split; [rewrite <- !app_assoc; cbn [app]; reflexivity|]);
    repeat split; try discriminate; try reflexivity;
    try (intros _; apply String.eqb_eq; exact Ec);
    try (intros _; simpl; tauto);
    try (intro H; simpl in H; repeat (destruct H as [H | H]; try discriminate H);
         contradiction);
    try (intro H; apply String.eqb_neq in Ec; contradiction).
Qed.

(** X7: whatever its outcome, ZeroDivisionError included, [_test] leaves
    the gradient mode as it found it and the model in evaluation mode; the
    no_grad scope is entered once, before the first batch, and left once,
    after the last one. *)
Theorem test_releases_no_grad (dl : list Batch) (w : World) :
  grad_enabled (snd (_test dl w)) = grad_enabled w /\
  training (model (snd (_test dl w))) = false /\
  exists tr,
    trace (snd (_test dl w)) =
      trace w ++ [EvModelEval; EvNoGradEnter] ++ tr ++ [EvNoGradExit] /\
    map kind tr = flat_map (fun _ => test_kinds) dl /\
    count_kind KNoGradEnter tr = 0 /\ count_kind KNoGradExit tr = 0.
Proof.
  rewrite _test_eval. norm_world. cbn [snd]. norm_world.
  split; [reflexivity|]. split; [reflexivity|].
  unfold test_events.
  destruct (test_pass_spec (params (model w)) false dl (0%Q, 0, 0)) as (Hk & _).
  exists (snd (test_pass (params (model w)) false dl (0%Q, 0, 0))).
  split; [reflexivity|]. split; [exact Hk|].
  rewrite !count_kind_kinds, Hk, !filter_flat_const. simpl. lia.
Qed.

Lemma train_batch_calls (b : Batch) (acc : Q * nat * nat) (w : World) :
  exists acc' w' out rate,
    train_batch b acc w = (Ok acc', w') /\
    trace w' = trace w ++
      [EvToDevice; EvToDevice;
       EvForward (training (model w)) (grad_enabled w) out;
       EvCriterion (criterion out (snd b));
       EvZeroGrad; EvBackward; EvOptimizerStep rate;
       EvSchedulerStep (S (last_epoch (scheduler w)));
       EvAccumulate (fst (fst acc')) (snd (fst acc')) (snd acc')] /\
    rate = current_lr (optimizer w) /\
    training (model w') = training (model w) /\
    grad_enabled w' = grad_enabled w /\
    initial_lr (optimizer w') = initial_lr (optimizer w) /\
    current_lr (optimizer w') =
      (initial_lr (optimizer w) *
       lr_lambda (num_warmup_steps (scheduler w)) (num_training_steps (scheduler w))
                 (S (last_epoch (scheduler w))))%Q /\
    scheduler w' =
      mkScheduler (num_warmup_steps (scheduler w))
                  (num_training_steps (scheduler w))
                  (S (last_epoch (scheduler w))).
Proof.
  destruct b as [inputs targets], acc as [[train_loss n_correct] n_train].
  unfold train_batch, bind, to_device, model_call, criterion_call,
    optimizer_zero_grad, loss_backward, optimizer_step, scheduler_step,
    accumulated, emit, ret; simpl.
  case_eq (training (model w)); intro Ht; simpl.
  - destruct (forward_train (params (model w)) (rng w) inputs) as [[out g] r]; simpl.
    destruct (adamw_step _ _ _ _) as [s p]; simpl.
    do 4 eexists. split; [reflexivity|]. simpl.
    repeat rewrite <- app_assoc. simpl. repeat split; assumption.
  - destruct (forward_eval (params (model w)) inputs) as [out g]; simpl.
    destruct (adamw_step _ _ _ _) as [s p]; simpl.
    do 4 eexists. split; [reflexivity|]. simpl.
    repeat rewrite <- app_assoc. simpl. repeat split; assumption.
Qed.

(** The learning rates the optimizer steps of a trace ran with. *)
Fixpoint step_rates (tr : list Event) : list Q :=
  match tr with
  | [] => []
  | EvOptimizerStep rate :: rest => rate :: step_rates rest
  | _ :: rest => step_rates rest
  end.

Lemma train_loop_calls (dl : list Batch) :
  forall (acc : Q * nat * nat) (w : World),
  exists acc' w' tr,
    for_each train_batch dl acc w = (Ok acc', w') /\
    trace w' = trace w ++ tr /\
    forward_modes tr = map (fun _ => (training (model w), grad_enabled w)) dl /\
    step_rates tr =
      map (fun k =>
             if Nat.eqb k 0 then current_lr (optimizer w)
             else (initial_lr (optimizer w) *
                   lr_lambda (num_warmup_steps (scheduler w))
                             (num_training_steps (scheduler w))
                             (last_epoch (scheduler w) + k))%Q)
          (seq 0 (List.length dl)) /\
    training (model w') = training (model w) /\
    grad_enabled w' = grad_enabled w /\
    initial_lr (optimizer w') = initial_lr (optimizer w) /\
    current_lr (optimizer w') =
      (if Nat.eqb (List.length dl) 0 then current_lr (optimizer w)
       else (initial_lr (optimizer w) *
             lr_lambda (num_warmup_steps (scheduler w))
                       (num_training_steps (scheduler w))
                       (last_epoch (scheduler w) + List.length dl))%Q) /\
    scheduler w' =
      mkScheduler (num_warmup_steps (scheduler w))
                  (num_training_steps (scheduler w))
                  (last_epoch (scheduler w) + List.length dl).
Proof.
  induction dl as [|b dl IH]; intros acc w.
  - exists acc, w, []. simpl. rewrite app_nil_r, Nat.add_0_r.
    repeat split. destruct (scheduler w); reflexivity.
  - destruct (train_batch_calls b acc w)
      as (acc1 & w1 & out & rate & Hrun & Htr & Hrate & Hmode & Hgrad & Hinit & Hcur & Hsched).
    destruct (IH acc1 w1)
      as (acc' & w' & tr & Hrun' & Htr' & Hm & Hr & Hmode' & Hgrad' & Hinit' & Hcur'
          & Hsched').
    eexists acc', w', (_ ++ tr).
    split. { simpl. unfold bind. rewrite Hrun. exact Hrun'. }
    split. { rewrite Htr', Htr, <- app_assoc. reflexivity. }
    cbn [app forward_modes step_rates List.length seq map Nat.eqb].
    repeat split.
    + rewrite Hm, Hmode, Hgrad. reflexivity.
    + rewrite Hr, Hrate. f_equal.
      rewrite <- seq_shift, map_map.
      apply map_ext_in. intros k Hk. apply in_seq in Hk.
      rewrite Hsched, Hinit. cbn [num_warmup_steps num_training_steps last_epoch].
      destruct k as [|k]; cbn [Nat.eqb].
      * rewrite Hcur, Nat.add_1_r. reflexivity.
      * replace (S (last_epoch (scheduler w)) + S k)
          with (last_epoch (scheduler w) + S (S k)) by lia. reflexivity.
    + congruence.
    + congruence.
    + congruence.
    + rewrite Hcur', Hsched, Hinit, Hcur.
      cbn [num_warmup_steps num_training_steps last_epoch].
      destruct (List.length dl) as [|n]; cbn [Nat.eqb].
      * now rewrite Nat.add_1_r.
      * replace (S (last_epoch (scheduler w)) + S n)
          with (last_epoch (scheduler w) + S (S n)) by lia. reflexivity.
    + rewrite Hsched', Hsched. simpl. f_equal. lia.
Qed.







Lemma fold_best_in_unit (rs : list (Q * Q)) (b0 : Q * Q) :
  in_unit b0 -> Forall in_unit rs -> in_unit (fold_left update_best rs b0).
Proof.
  intros H0 Hall.
  destruct (fold_best_spec rs b0) as (_ & _ & [-> | Hin]); [exact H0|].
  rewrite Forall_forall in Hall. now apply Hall.
Qed.

(** Whatever its outcome, a run logs test accuracies between 0 and 1. *)
Lemma run_any (self : Self) (w : World) :
  exists tr,
    trace (snd (run self w)) = trace w ++ tr /\
    Forall in_unit (test_results tr).
Proof.
  unfold run. set (args := self_args self).
  erewrite bind_Ok by reflexivity. cbv beta.
  destruct (load_data _ _ _ _ _ _ _ _) as [train test]. cbv beta iota.
  erewrite bind_Ok by reflexivity. norm_world.
  erewrite bind_Ok by reflexivity. norm_world.
  match goal with
  | |- context [bind (for_each ?body ?es ?s0) _ ?w0] =>
      destruct (epoch_loop_any args train test es s0 w0) as (tr & Htr & _ & _ & Hres);
      destruct (for_each body es s0 w0) as [[s' | e] w'] eqn:Hloop
  end; cbn [snd] in Htr; norm_world.
  - erewrite bind_Ok by exact Hloop.
    do 6 (erewrite bind_Ok by reflexivity; norm_world).
    unfold emit at 1. cbn [snd]. norm_world.
    exists ([EvLoadData; EvMakeOptimizer (lr args) (decay args) (eps args);
             EvMakeScheduler ((1 # 10) * of_int (List.length train))%Q
               (List.length train * num_epoch args)] ++ tr ++
            report args (best s') (l_epo s') (l_acc s')).
    split; [rewrite Htr; unfold report; rewrite <- !app_assoc; reflexivity|].
    rewrite !test_results_app. cbn [test_results report app].
    now rewrite app_nil_r.
  - erewrite bind_Raise by exact Hloop. cbn [snd].
    exists ([EvLoadData; EvMakeOptimizer (lr args) (decay args) (eps args);
             EvMakeScheduler ((1 # 10) * of_int (List.length train))%Q
               (List.length train * num_epoch args)] ++ tr).
    split; [rewrite Htr, <- !app_assoc; reflexivity|].
    now rewrite test_results_app.
Qed.

(** X10: in every completed run each plotted test accuracy and the logged
    best accuracy lie between 0 and 1, and the plot has one point per
    epoch. *)
Theorem run_accuracies_in_unit_interval (self : Self) (w : World) :
  run_ready self ->
  exists w' body best ys,
    run self w = (Ok tt, w') /\
    trace w' =
      trace w ++ body ++
      [EvLog (LogBest (fst best) (snd best));
       EvLog (LogSaved (log_name (self_args self)));
       EvPlot (seq 0 (num_epoch (self_args self))) ys;
       EvYLabel "accuracy"; EvXLabel "epoch"; EvSaveFig "image.png"; EvShow] /\
    List.length ys = num_epoch (self_args self) /\
    Forall (fun a => (0 <= a)%Q /\ (a <= 1)%Q) ys /\
    (0 <= snd best)%Q /\ (snd best <= 1)%Q.
Proof.
  intro Hready.
  destruct (run_spec self w Hready) as (w' & tr & Hrun & Htr & Hlen & _).
  destruct (run_any self w) as (tr2 & Htr2 & Hres).
  rewrite Hrun in Htr2. cbn [snd] in Htr2. cbv zeta in Htr.
  set (pre := [EvLoadData; _; _]) in Htr.
  rewrite Htr in Htr2. apply app_inv_head in Htr2. subst tr2.
  rewrite !test_results_app in Hres. cbn [test_results report app] in Hres.
  rewrite app_nil_r in Hres. change (test_results pre) with (@nil (Q * Q)) in Hres.
  cbn [app] in Hres.
  exists w', (pre ++ tr).
  exists (fold_left update_best (test_results tr) best_init), (map snd (test_results tr)).
  split; [exact Hrun|].
  split; [rewrite Htr; unfold report; rewrite <- !app_assoc; reflexivity|].
  split; [now rewrite length_map|].
  split.
  - rewrite Forall_map. exact Hres.
  - apply (fold_best_in_unit (test_results tr) best_init); [|exact Hres].
    unfold in_unit, best_init. simpl. split; lra.
Qed.

(** X11: in every completed run no epoch's result is better than the
    logged best snapshot (none has a higher test accuracy, and none with
    the same accuracy has a lower test loss); as soon as one epoch has a
    positive test accuracy, the logged snapshot is the result of one of
    the epochs. *)
Theorem logged_best_dominates_epochs (self : Self) (w : World) :
  run_ready self ->
  exists w' body best,
    run self w = (Ok tt, w') /\
    trace w' =
      trace w ++ body ++
      [EvLog (LogBest (fst best) (snd best));
       EvLog (LogSaved (log_name (self_args self)));
       EvPlot (seq 0 (num_epoch (self_args self))) (map snd (test_results body));
       EvYLabel "accuracy"; EvXLabel "epoch"; EvSaveFig "image.png"; EvShow] /\
    (forall r, In r (test_results body) -> dominated r best) /\
    ((exists r, In r (test_results body) /\ (0 < snd r)%Q) ->
     In best (test_results body)).
Proof.
  intro Hready.
  destruct (run_spec self w Hready) as (w' & tr & Hrun & Htr & _).
  cbv zeta in Htr. set (pre := [EvLoadData; _; _]) in Htr.
  assert (Hres : test_results (pre ++ tr) = test_results tr)
    by now rewrite test_results_app.
  exists w', (pre ++ tr), (final_best (test_results tr)).
  rewrite Hres.
  split; [exact Hrun|].
  split; [rewrite Htr; unfold report, final_best; rewrite <- !app_assoc; reflexivity|].
  destruct (fold_best_spec (test_results tr) best_init) as (_ & Hall & _).
  split; [exact Hall|].
  intros (r & Hin & Hpos).
  apply final_best_maximal. exists r. split; [exact Hin|].
  apply improves_iff. left. exact Hpos.
Qed.

Lemma init_ok_known (args : Args) (w w1 : World) (self : Self) :
  __init__ args w = (Ok self, w1) ->
  known_model (model_name args) /\ known_method (method_name args).
Proof.
  intro Hinit.
  assert (Hdec : (known_model (model_name args) /\ known_method (method_name args)) \/
                 (~ known_model (model_name args) \/ ~ known_method (method_name args))).
  { unfold known_model, known_method.
    destruct (string_dec (model_name args) "bert"),
             (string_dec (model_name args) "roberta"),
             (string_dec (method_name args) "fnn"),
             (string_dec (method_name args) "lstm"); tauto. }
  destruct Hdec as [Hok | Hbad]; [exact Hok|].
  destruct (init_unknown args w Hbad) as (msg & w' & tr & H & _).
  rewrite H in Hinit. discriminate.
Qed.

Lemma init_known_quiet (args : Args) (w : World) :
  known_model (model_name args) -> known_method (method_name args) ->
  exists self w' tr,
    __init__ args w = (Ok self, w') /\
    trace w' = trace w ++ tr /\
    count_kind KLoadData tr = 0 /\ persisted tr = [] /\
    count_kind KBuildModel tr = 1.
Proof.
  unfold known_model, known_method. intros Hmodel Hmethod.
  unfold __init__, _print_args, bind, log, from_pretrained, construct_model,
    emit, raise, ret.
  destruct Hmodel as [-> | ->], Hmethod as [-> | ->]; cbn [String.eqb Ascii.eqb Bool.eqb];
    norm_world;
    destruct (String.eqb (device_type args) "cuda"); norm_world;
    do 3 eexists; (split; [reflexivity|]); norm_world;
    (split; [rewrite <- !app_assoc; cbn [app]; reflexivity|]);
    repeat split.
Qed.

(** The kinds of calls an epoch makes, and those a run makes after its
    call of load_data. *)
Definition epoch_kinds (k : Kind) : bool :=
  match k with
  | KModelTrain | KModelEval | KNoGradEnter | KNoGradExit | KToDevice
  | KForward | KCriterion | KZeroGrad | KBackward | KOptimizerStep
  | KSchedulerStep | KAccumulate | KLog => true
  | _ => false
  end.

Definition run_kinds (k : Kind) : bool :=
  match k with
  | KMakeOptimizer | KMakeScheduler | KPlot | KYLabel | KXLabel
  | KSaveFig | KShow => true
  | _ => epoch_kinds k
  end.

(** Every event of [tr] is of an allowed kind. *)
Definition only (allowed : Kind -> bool) (tr : list Event) : Prop :=
  forallb (fun e => allowed (kind e)) tr = true.

Lemma only_app (allowed : Kind -> bool) (a b : list Event) :
  only allowed a -> only allowed b -> only allowed (a ++ b).
Proof. unfold only. intros Ha Hb. now rewrite forallb_app, Ha, Hb. Qed.

Lemma only_of_kinds (allowed : Kind -> bool) (tr : list Event) :
  forallb allowed (map kind tr) = true -> only allowed tr.
Proof.
  unfold only. induction tr as [|e tr IH]; simpl; [reflexivity|].
  intro H. apply andb_true_iff in H as [H1 H2]. now rewrite H1, IH.
Qed.

Lemma forallb_flat_const {A} (f : Kind -> bool) (ks : list Kind) (l : list A) :
  forallb f ks = true -> forallb f (flat_map (fun _ => ks) l) = true.
Proof.
  intro H. induction l as [|a l IH]; simpl; [reflexivity|].
  now rewrite forallb_app, H, IH.
Qed.

Lemma only_count (allowed : Kind -> bool) (k : Kind) (tr : list Event) :
  only allowed tr -> allowed k = false -> count_kind k tr = 0.
Proof.
  unfold only, count_kind. intros Hall Hk.
  induction tr as [|e tr IH]; simpl in *; [reflexivity|].
  apply andb_true_iff in Hall as [H1 H2].
  destruct (Kind_eqb k (kind e)) eqn:E; [|now apply IH].
  exfalso. destruct k, (kind e); simpl in E; try discriminate E; congruence.
Qed.

Lemma only_weaken (tr : list Event) : only epoch_kinds tr -> only run_kinds tr.
Proof.
  unfold only. induction tr as [|e tr IH]; simpl; [reflexivity|].
  intro H. apply andb_true_iff in H as [H1 H2]. rewrite (IH H2), andb_true_r.
  unfold run_kinds. destruct (kind e); simpl in *; congruence.
Qed.

Lemma train_pass_only (dl : list Batch) (w : World) :
  exists tr, trace (snd (_train dl w)) = trace w ++ tr /\ only epoch_kinds tr.
Proof.
  destruct (_train_spec dl w) as (ls & w1 & tr1 & Hrun & Htr & Hk & _).
  rewrite Hrun. cbn [snd]. exists ([EvModelTrain] ++ tr1).
  split; [exact Htr|].
  apply only_app; [reflexivity|].
  apply only_of_kinds. rewrite Hk. now apply forallb_flat_const.
Qed.

Lemma test_pass_only (dl : list Batch) (w : World) :
  exists tr, trace (snd (_test dl w)) = trace w ++ tr /\ only epoch_kinds tr.
Proof.
  rewrite _test_eval. cbn [snd]. norm_world.
  exists (test_events (params (model w)) dl). split; [reflexivity|].
  unfold test_events.
  destruct (test_pass_spec (params (model w)) false dl (0%Q, 0, 0)) as (Hk & _).
  change (EvModelEval :: EvNoGradEnter :: ?t ++ ?u)
    with ([EvModelEval; EvNoGradEnter] ++ t ++ u).
  apply only_app; [reflexivity|]. apply only_app; [|reflexivity].
  apply only_of_kinds. rewrite Hk. now apply forallb_flat_const.
Qed.

Lemma epoch_body_only (args : Args) (train test : list Batch)
    (epoch : nat) (s : Locals) (w : World) :
  exists tr,
    trace (snd (epoch_body args train test epoch s w)) = trace w ++ tr /\
    only epoch_kinds tr.
Proof.
  destruct (train_pass_only train w) as (tr1 & Htr1 & O1).
  unfold epoch_body. unfold bind at 1.
  destruct (_train train w) as [[[tl ta] | e] w1]; cbn [snd] in *;
    [|exists tr1; split; assumption].
  destruct (test_pass_only test w1) as (tr2 & Htr2 & O2).
  unfold bind at 1.
  destruct (_test test w1) as [[[l a] | e] w2]; cbn [snd] in *;
    [|exists (tr1 ++ tr2); split;
      [rewrite Htr2, Htr1, app_assoc; reflexivity | now apply only_app]].
  unfold bind, truediv, log, emit, raise, ret.
  destruct (Nat.eqb (num_epoch args) 0); cbn [snd]; norm_world.
  - exists (tr1 ++ tr2). split;
      [rewrite Htr2, Htr1, app_assoc; reflexivity | now apply only_app].
  - exists (tr1 ++ tr2 ++ [EvLog (LogProgress (epoch + 1) (num_epoch args));
                           EvLog (LogTrain tl ta); EvLog (LogTest l a)]).
    split; [rewrite Htr2, Htr1, <- !app_assoc; reflexivity|].
    apply only_app; [assumption|]. apply only_app; [assumption | reflexivity].
Qed.

Lemma epoch_loop_only (args : Args) (train test : list Batch) (es : list nat) :
  forall (s : Locals) (w : World),
  exists tr,
    trace (snd (for_each (epoch_body args train test) es s w)) = trace w ++ tr /\
    only epoch_kinds tr.
Proof.
  induction es as [|epoch es IH]; intros s w.
  - exists []. simpl. rewrite app_nil_r. split; reflexivity.
  - destruct (epoch_body_only args train test epoch s w) as (tr1 & Htr1 & O1).
    simpl. unfold bind.
    destruct (epoch_body args train test epoch s w) as [[s1 | e] w1]; cbn [snd] in *.
    + destruct (IH s1 w1) as (tr2 & Htr2 & O2).
      exists (tr1 ++ tr2). split; [rewrite Htr2, Htr1, app_assoc; reflexivity|].
      now apply only_app.
    + exists tr1. split; assumption.
Qed.

Lemma run_only (self : Self) (w : World) :
  exists tr,
    trace (snd (run self w)) = trace w ++ EvLoadData :: tr /\
    only run_kinds tr.
Proof.
  unfold run. set (args := self_args self).
  erewrite bind_Ok by reflexivity. cbv beta.
  destruct (load_data _ _ _ _ _ _ _ _) as [train test]. cbv beta iota.
  erewrite bind_Ok by reflexivity. norm_world.
  erewrite bind_Ok by reflexivity. norm_world.
  match goal with
  | |- context [bind (for_each ?body ?es ?s0) _ ?w0] =>
      destruct (epoch_loop_only args train test es s0 w0) as (tr & Htr & Hon);
      destruct (for_each body es s0 w0) as [[s' | e] w'] eqn:Hloop
  end; cbn [snd] in Htr; norm_world; apply only_weaken in Hon.
  - erewrite bind_Ok by exact Hloop.
    do 6 (erewrite bind_Ok by reflexivity; norm_world).
    unfold emit at 1. cbn [snd]. norm_world.
    exists ([EvMakeOptimizer (lr args) (decay args) (eps args);
             EvMakeScheduler ((1 # 10) * of_int (List.length train))%Q
               (List.length train * num_epoch args)] ++ tr ++
            report args (best s') (l_epo s') (l_acc s')).
    split; [rewrite Htr; unfold report; rewrite <- !app_assoc; reflexivity|].
    apply only_app; [reflexivity|]. apply only_app; [assumption | reflexivity].
  - erewrite bind_Raise by exact Hloop. cbn [snd].
    exists ([EvMakeOptimizer (lr args) (decay args) (eps args);
             EvMakeScheduler ((1 # 10) * of_int (List.length train))%Q
               (List.length train * num_epoch args)] ++ tr).
    split; [rewrite Htr, <- !app_assoc; reflexivity|].
    apply only_app; [reflexivity | assumption].
Qed.

(** X13: whatever its outcome, [run] starts with its single call of
    load_data and makes afterwards only calls on the optimizer, the
    scheduler, the model, the logger and the plot: it never builds a model
    or loads a checkpoint, never moves the model, and never calls
    torch.save. *)
Theorem run_calls (self : Self) (w : World) :
  exists tr,
    trace (snd (run self w)) = trace w ++ EvLoadData :: tr /\
    count_kind KLoadData tr = 0 /\
    count_kind KFromPretrained tr = 0 /\
    count_kind KBuildModel tr = 0 /\
    count_kind KModelTo tr = 0 /\
    count_kind KTorchSave tr = 0.
Proof.
  destruct (run_only self w) as (tr & Htr & Hon).
  exists tr. split; [exact Htr|].
  repeat split; apply (only_count run_kinds); auto.
Qed.

(** X12: when construction succeeds and the run is ready, the script
    completes; it builds one model, calls load_data exactly once and only
    after construction has finished, and image.png is the only file it
    writes. *)
Theorem main_loads_once_after_construction (args : Args) (w w1 : World) (self : Self) :
  __init__ args w = (Ok self, w1) ->
  run_ready self ->
  exists w' built ran,
    main args w = (Ok tt, w') /\
    trace w1 = trace w ++ built /\
    trace w' = trace w1 ++ EvLoadData :: ran /\
    count_kind KBuildModel built = 1 /\
    count_kind KLoadData built = 0 /\
    count_kind KLoadData ran = 0 /\
    count_kind KBuildModel ran = 0 /\
    persisted (built ++ EvLoadData :: ran) = ["image.png"].
Proof.
  intros Hinit Hready.
  destruct (init_ok_known _ _ _ _ Hinit) as [Hm Hh].
  destruct (init_known_quiet args w Hm Hh)
    as (self' & w1' & built & Hinit' & Hbuilt & Hload & Hper & Hbm).
  rewrite Hinit in Hinit'. injection Hinit' as <- <-.
  destruct (run_spec self w1 Hready)
    as (w' & tr & Hrun & Htr & _ & Hper' & Hload' & _).
  cbv zeta in Htr.
  exists w', built. eexists.
  split; [unfold main; rewrite (bind_Ok _ _ _ _ _ Hinit); exact Hrun|].
  split; [exact Hbuilt|].
  split; [exact Htr|].
  destruct (run_only self w1) as (ran & Hran & Hon).
  rewrite Hrun in Hran. cbn [snd] in Hran. rewrite Htr in Hran.
  apply app_inv_head in Hran. cbn [app] in Hran. injection Hran as Hran.
  rewrite Hran.
  split; [exact Hbm|]. split; [exact Hload|].
  split; [now apply (only_count run_kinds)|].
  split; [now apply (only_count run_kinds)|].
  rewrite <- Hran.
  change (EvLoadData :: ?a :: ?b :: ?t) with ([EvLoadData; a; b] ++ t).
  rewrite !persisted_app, Hper, Hper'. reflexivity.
Qed.

(** The rate the schedule of [w] assigns to step [k], and the optimizer
    holding the rate of the scheduler's current step. *)
Definition scheduled_rate (w : World) (k : nat) : Q :=
  (initial_lr (optimizer w) *
   lr_lambda (num_warmup_steps (scheduler w)) (num_training_steps (scheduler w)) k)%Q.

Definition in_step (w : World) : Prop :=
  current_lr (optimizer w) = scheduled_rate w (last_epoch (scheduler w)).

Lemma no_step_no_rates (tr : list Event) :
  count_kind KOptimizerStep tr = 0 -> step_rates tr = [].
Proof.
  unfold count_kind. induction tr as [|e tr IH]; simpl; [reflexivity|].
  destruct e; simpl; auto; discriminate.
Qed.

Lemma step_rates_app (a b : list Event) :
  step_rates (a ++ b) = step_rates a ++ step_rates b.
Proof.
  induction a as [|e a IH]; simpl; [reflexivity|].
  destruct e; simpl; rewrite IH; reflexivity.
Qed.

Lemma train_pass_rates (dl : list Batch) (w : World) :
  in_step w ->
  exists tr,
    trace (snd (_train dl w)) = trace w ++ tr /\
    step_rates tr =
      map (fun k => scheduled_rate w (last_epoch (scheduler w) + k))
          (seq 0 (List.length dl)) /\
    in_step (snd (_train dl w)) /\
    initial_lr (optimizer (snd (_train dl w))) = initial_lr (optimizer w) /\
    scheduler (snd (_train dl w)) =
      mkScheduler (num_warmup_steps (scheduler w)) (num_training_steps (scheduler w))
                  (last_epoch (scheduler w) + List.length dl).
Proof.
  intro Hstep.
  assert (Hsnd : exists w' tr,
            snd (_train dl w) = w' /\
            trace w' = trace w ++ tr /\
            step_rates tr =
              map (fun k => scheduled_rate w (last_epoch (scheduler w) + k))
                  (seq 0 (List.length dl)) /\
            in_step w' /\
            initial_lr (optimizer w') = initial_lr (optimizer w) /\
            scheduler w' =
              mkScheduler (num_warmup_steps (scheduler w)) (num_training_steps (scheduler w))
                          (last_epoch (scheduler w) + List.length dl)).
  { unfold _train, bind. unfold model_train at 1.
    set (w0 := set_model _ w). unfold emit at 1.
    set (w1 := set_trace _ w0).
    destruct (train_loop_calls dl (0%Q, 0, 0) w1)
      as (acc' & w' & tr & Hrun & Htr & _ & Hr & _ & _ & Hinit & Hcur & Hsched).
    rewrite Hrun. destruct acc' as [[ls nc] n].
    exists w', ([EvModelTrain] ++ tr).
    split.
    { unfold truediv, raise, ret. destruct (Nat.eqb n 0); reflexivity. }
    subst w1 w0. norm_world. unfold in_step, scheduled_rate in *.
    split; [rewrite Htr, <- app_assoc; reflexivity|].
    split.
    { rewrite step_rates_app. cbn [step_rates app]. rewrite Hr.
      apply map_ext. intros [|k]; cbn [Nat.eqb]; [|reflexivity].
      now rewrite Nat.add_0_r. }
    rewrite Hsched, Hinit, Hcur. cbn [num_warmup_steps num_training_steps last_epoch].
    repeat split.
    destruct (List.length dl); cbn [Nat.eqb]; [|reflexivity].
    now rewrite Nat.add_0_r. }
  destruct Hsnd as (w' & tr & Hsnd & H).
  rewrite Hsnd. exists tr. exact H.
Qed.

Lemma epoch_body_rates (args : Args) (train test : list Batch)
    (epoch : nat) (s : Locals) (w : World) :
  in_step w ->
  exists tr,
    trace (snd (epoch_body args train test epoch s w)) = trace w ++ tr /\
    step_rates tr =
      map (fun k => scheduled_rate w (last_epoch (scheduler w) + k))
          (seq 0 (List.length train)) /\
    in_step (snd (epoch_body args train test epoch s w)) /\
    initial_lr (optimizer (snd (epoch_body args train test epoch s w))) =
      initial_lr (optimizer w) /\
    scheduler (snd (epoch_body args train test epoch s w)) =
      mkScheduler (num_warmup_steps (scheduler w)) (num_training_steps (scheduler w))
                  (last_epoch (scheduler w) + List.length train).
Proof.
  intro Hstep.
  assert (Hsnd : exists w' tr,
            snd (epoch_body args train test epoch s w) = w' /\
            trace w' = trace w ++ tr /\
            step_rates tr =
              map (fun k => scheduled_rate w (last_epoch (scheduler w) + k))
                  (seq 0 (List.length train)) /\
            in_step w' /\
            initial_lr (optimizer w') = initial_lr (optimizer w) /\
            scheduler w' =
              mkScheduler (num_warmup_steps (scheduler w)) (num_training_steps (scheduler w))
                          (last_epoch (scheduler w) + List.length train)).
  { destruct (train_pass_rates train w Hstep) as (tr1 & Htr1 & Hr1 & Hs1 & Hi1 & Hsch1).
    unfold epoch_body. unfold bind at 1.
    destruct (_train train w) as [[[tl ta] | e] w1]; cbn [snd] in *;
      [|exists w1, tr1; repeat split; assumption].
    destruct (test_events_quiet (params (model w1)) test) as (_ & _ & To & _).
    pose proof (no_step_no_rates _ To) as Hr2.
    unfold bind at 1. rewrite _test_eval.
    set (w2 := set_trace _ _).
    assert (Hw2 : trace w2 = trace w ++ tr1 ++ test_events (params (model w1)) test /\
                  in_step w2 /\ initial_lr (optimizer w2) = initial_lr (optimizer w) /\
                  scheduler w2 =
                    mkScheduler (num_warmup_steps (scheduler w))
                                (num_training_steps (scheduler w))
                                (last_epoch (scheduler w) + List.length train)).
    { subst w2. unfold in_step, scheduled_rate in *. norm_world.
      rewrite Htr1, <- app_assoc. repeat split; assumption. }
    destruct Hw2 as (Htr2 & Hs2 & Hi2 & Hsch2).
    assert (Hrates : step_rates (tr1 ++ test_events (params (model w1)) test) =
                     map (fun k => scheduled_rate w (last_epoch (scheduler w) + k))
                         (seq 0 (List.length train))).
    { now rewrite step_rates_app, Hr2, app_nil_r. }
    clearbody w2.
    destruct (test_outcome (params (model w1)) test) as [[l a] | e]; cbn [snd];
      [|exists w2, (tr1 ++ test_events (params (model w1)) test);
        repeat split; assumption].
    unfold bind, truediv, log, emit, raise, ret.
    destruct (Nat.eqb (num_epoch args) 0); cbn [snd];
      [exists w2, (tr1 ++ test_events (params (model w1)) test);
       repeat split; assumption|].
    eexists.
    exists ((tr1 ++ test_events (params (model w1)) test) ++
            [EvLog (LogProgress (epoch + 1) (num_epoch args));
             EvLog (LogTrain tl ta); EvLog (LogTest l a)]).
    split; [reflexivity|].
    unfold in_step, scheduled_rate in *. norm_world.
    split; [rewrite Htr2, <- !app_assoc; reflexivity|].
    split; [rewrite step_rates_app, Hrates; cbn [step_rates]; now rewrite app_nil_r|].
    repeat split; assumption. }
  destruct Hsnd as (w' & tr & Hsnd & H).
  rewrite Hsnd. exists tr. exact H.
Qed.

Lemma map_seq_from {A} (m : nat) :
  forall (g : nat -> A) (n : nat),
    map g (seq n m) = map (fun k => g (n + k)) (seq 0 m).
Proof.
  induction m as [|m IH]; intros g n; simpl; [reflexivity|].
  rewrite Nat.add_0_r. f_equal.
  rewrite (IH g (S n)), (IH (fun k => g (n + k)) 1).
  apply map_ext. intro k. f_equal. lia.
Qed.

Lemma epoch_loop_rates (args : Args) (train test : list Batch) (es : list nat) :
  forall (s s' : Locals) (w w' : World),
    in_step w ->
    for_each (epoch_body args train test) es s w = (Ok s', w') ->
    exists tr,
      trace w' = trace w ++ tr /\
      step_rates tr =
        map (fun k => scheduled_rate w (last_epoch (scheduler w) + k))
            (seq 0 (List.length train * List.length es)).
Proof.
  induction es as [|epoch es IH]; intros s s' w w' Hstep Hrun.
  - simpl in Hrun. unfold ret in Hrun. injection Hrun as <- <-.
    exists []. rewrite app_nil_r, Nat.mul_0_r. split; reflexivity.
  - destruct (epoch_body_rates args train test epoch s w Hstep)
      as (tr1 & Htr1 & Hr1 & Hs1 & Hi1 & Hsch1).
    simpl in Hrun. unfold bind in Hrun.
    destruct (epoch_body args train test epoch s w) as [[s1 | e] w1];
      [|discriminate]. cbn [snd] in *.
    destruct (IH _ _ _ _ Hs1 Hrun) as (tr2 & Htr2 & Hr2).
    exists (tr1 ++ tr2). split; [rewrite Htr2, Htr1, app_assoc; reflexivity|].
    rewrite step_rates_app, Hr1, Hr2.
    cbn [List.length]. rewrite Nat.mul_succ_r, (Nat.add_comm _ (List.length train)).
    rewrite seq_app, map_app. f_equal.
    rewrite (map_seq_from _ _ (0 + List.length train)).
    apply map_ext. intro k.
    unfold scheduled_rate. rewrite Hi1, Hsch1.
    cbn [num_warmup_steps num_training_steps last_epoch].
    do 2 f_equal. lia.
Qed.

(** X14: in a completed run the k-th optimizer step (counted from 0 over
    all epochs) is taken with the learning rate lr * lr_lambda(k) of the
    schedule built with num_warmup_steps = 0.1 * len(train_dataloader) and
    num_training_steps = len(train_dataloader) * num_epoch: the steps run
    through the schedule from step 0 to step num_training_steps - 1, in
    order and without a gap. *)
Theorem run_follows_schedule (self : Self) (w : World) :
  run_ready self ->
  let args := self_args self in
  let batches := List.length (fst (loaders self)) in
  let warmup := ((1 # 10) * of_int batches)%Q in
  let total := batches * num_epoch args in
  exists w' tr,
    run self w = (Ok tt, w') /\
    trace w' = trace w ++ tr /\
    step_rates tr =
      map (fun k => (lr args * lr_lambda warmup total k)%Q) (seq 0 total).
Proof.
  intros Hready args batches warmup total.
  destruct (run_spec self w Hready) as (w' & tr0 & Hrun & _).
  exists w'.
  enough (H : exists tr,
            trace w' = trace w ++ tr /\
            step_rates tr =
              map (fun k => (lr args * lr_lambda warmup total k)%Q) (seq 0 total)).
  { destruct H as (tr & H1 & H2). exists tr. auto. }
  revert Hrun.
  unfold run. fold args. subst batches warmup total.
  erewrite bind_Ok by reflexivity. cbv beta.
  change (load_data _ _ _ _ _ _ _ _) with (loaders self).
  destruct (loaders self) as [train test]. cbv beta iota. unfold fst.
  erewrite bind_Ok by reflexivity. norm_world.
  erewrite bind_Ok by reflexivity. norm_world.
  match goal with
  | |- context [bind (for_each ?body ?es ?s0) _ ?w0] =>
      assert (Hin : in_step w0) by reflexivity;
      destruct (for_each body es s0 w0) as [[s' | e] w1] eqn:Hloop;
      [destruct (epoch_loop_rates args train test es s0 s' w0 w1 Hin Hloop)
         as (tr & Htr & Hr)
      | erewrite bind_Raise by exact Hloop; discriminate]
  end.
  erewrite bind_Ok by exact Hloop.
  do 6 (erewrite bind_Ok by reflexivity; norm_world).
  unfold emit. norm_world. intro Hrun. injection Hrun as <-.
  norm_world. unfold scheduled_rate in Hr. norm_world.
  rewrite length_seq in Hr. cbn [Nat.add] in Hr.
  exists ([EvLoadData; EvMakeOptimizer (lr args) (decay args) (eps args);
           EvMakeScheduler ((1 # 10) * of_int (List.length train))%Q
             (List.length train * num_epoch args)] ++ tr ++
          report args (best s') (l_epo s') (l_acc s')).
  split; [rewrite Htr; unfold report; rewrite <- !app_assoc; reflexivity|].
  rewrite !step_rates_app, Hr. cbn [step_rates report app].
  now rewrite app_nil_r.
Qed.

(** X15: what an evaluation pass returns and the calls it makes (their
    logits and losses included) depend on the parameters and the stream
    only: neither the mode training left the model in, nor the random
    generator, the gradient mode, the gradients, the optimizer or the
    scheduler has any influence. *)
Theorem test_depends_on_params_only (dl : list Batch) (w1 w2 : World) :
  params (model w1) = params (model w2) ->
  fst (_test dl w1) = fst (_test dl w2) /\
  exists tr,
    trace (snd (_test dl w1)) = trace w1 ++ tr /\
    trace (snd (_test dl w2)) = trace w2 ++ tr.
Proof.
  intro Hp. rewrite !_test_eval. cbn [fst snd]. norm_world. rewrite Hp.
  split; [reflexivity|].
  exists (test_events (params (model w2)) dl). split; reflexivity.
Qed.

End Torch.

Arguments trace {Params Grads OptState Rng} w.
Arguments scheduler {Params Grads OptState Rng} w.
Arguments total_samples {Inputs} dl.
Arguments batch_size {Inputs} b.

(** * A small instance

    One weight, two classes: the logits of an example with feature [x]
    are [0; p + x].  The test split is labelled against the model, so the
    test accuracy of every epoch is 0. *)

Definition toy_forward (p : Q) (xs : list Q) : Logits :=
  map (fun x => [0%Q; (p + x)%Q]) xs.

Definition toy_forward_train (p : Q) (r : nat) (xs : list Q) : Logits * nat * nat :=
  (toy_forward p xs, List.length xs, S r).

Definition toy_forward_eval (p : Q) (xs : list Q) : Logits * nat :=
  (toy_forward p xs, List.length xs).

Definition toy_criterion (out : Logits) (targets : Targets) : Q :=
  ((1 # 2) + of_int (List.length targets - correct out targets))%Q.

Definition toy_backward (rows : nat) (targets : Targets) (g : Q) : Q :=
  (g + of_int rows)%Q.

Definition toy_adamw_step (rate g : Q) (steps : nat) (p : Q) : nat * Q :=
  (S steps, (p - rate * g)%Q).

Definition toy_train_stream : list (list Q * Targets) :=
  [([1%Q; (-1)%Q], [1; 0]); ([2%Q], [1])].

Definition toy_test_stream : list (list Q * Targets) :=
  [([1%Q; 1%Q], [0; 0])].

Definition toy_load_data (_ _ : string) (_ : string * bool) (_ _ : nat)
    (_ _ : string) (_ : nat) : list (list Q * Targets) * list (list Q * Targets) :=
  (toy_train_stream, toy_test_stream).

Definition toy_args (name : string) : Args :=
  mkArgs name "fnn" 2 "sst2" "data" 2 2 2
         (1 # 100)%Q (1 # 100)%Q (1 # 100000000)%Q "cpu" 0 true "sst2.log".

Definition toy_self : Self :=
  mkSelf (toy_args "bert") ("bert-base-uncased", false) FNN.

Definition toy_world : World Q Q nat nat :=
  mkWorld Q Q nat nat
    (mkModel Q Q 0%Q 0%Q true) (mkOptimizer nat 0 0%Q 0%Q)
    (mkScheduler 0%Q 0 0) 0 true [].

(** The loops, the run and the script at this instance. *)
Abbreviation toy_train_pass :=
  (_train Q Q nat nat (list Q) nat toy_forward_train toy_forward_eval toy_criterion
     0%Q toy_backward toy_adamw_step (fun _ _ _ => 1%Q)).

Abbreviation toy_test_pass :=
  (_test Q Q nat nat (list Q) nat toy_forward_train toy_forward_eval toy_criterion).

Abbreviation toy_run :=
  (run Q Q nat nat (list Q) nat toy_forward_train toy_forward_eval toy_criterion
     0%Q toy_backward (fun _ _ _ => 0) toy_adamw_step (fun _ _ _ => 1%Q)
     toy_load_data toy_self).

Abbreviation toy_main :=
  (main Q Q nat nat (list Q) nat (fun _ _ _ => 0%Q) toy_forward_train
     toy_forward_eval toy_criterion 0%Q toy_backward (fun _ _ _ => 0)
     toy_adamw_step (fun _ _ _ => 1%Q) toy_load_data).

(** A test split on which half of the predictions are right. *)
Definition toy_mixed_stream : list (list Q * Targets) :=
  [([1%Q; (-1)%Q], [1; 1])].

(** The epoch loop of the instance after [k] epochs. *)
Abbreviation toy_after k :=
  (for_each Q Q nat nat
     (epoch_body Q Q nat nat (list Q) nat toy_forward_train toy_forward_eval
        toy_criterion 0%Q toy_backward toy_adamw_step (fun _ _ _ => 1%Q)
        (toy_args "bert") toy_train_stream toy_mixed_stream)
     (seq 0 k) (mkLocals best_init [] []) toy_world).

Definition locals_of (r : Result Locals * World Q Q nat nat) : Locals :=
  match fst r with
  | Ok s => s
  | Raise _ => mkLocals best_init [] []
  end.


(** C1, at an epoch with test accuracy 0 and test loss 5/2: the condition
    of line 109 is false against the initial (0, 0), the snapshot stays
    (0, 0), and (0, 0) is not the result of any epoch; the run of the small
    instance, whose two epochs both end with test accuracy 0, logs
    'best loss: 0, best acc: 0' although every logged test loss is 5/2. *)
Theorem zero_accuracy_keeps_initial_snapshot :
  improves best_init ((5 # 2)%Q, 0%Q) = false /\
  final_best [((5 # 2)%Q, 0%Q)] = (0%Q, 0%Q) /\
  ~ In (final_best [((5 # 2)%Q, 0%Q)]) [((5 # 2)%Q, 0%Q)] /\
  test_results (trace (snd (toy_run toy_world))) =
    [((10 # 4)%Q, (0 # 2)%Q); ((10 # 4)%Q, (0 # 2)%Q)] /\
  In (EvLog (LogBest 0 0)) (trace (snd (toy_run toy_world))).
Proof.
  split; [reflexivity|]. split; [reflexivity|].
  split; [simpl; intros [H | []]; discriminate H|].
  split; [vm_compute; reflexivity|].
  vm_compute. repeat (first [left; reflexivity | right]).
Qed.

(** C2, the claim as stated fails: on the empty stream both loops end in
    ZeroDivisionError. *)
Lemma empty_stream_divides_by_zero :
  fst (toy_train_pass [] toy_world) = Raise ZeroDivisionError /\
  fst (toy_test_pass [] toy_world) = Raise ZeroDivisionError.
Proof. split; reflexivity. Qed.

(** C3 on the training stream of the small instance. *)
Lemma mean_loss_weighted_witness :
  0 < total_samples toy_train_stream /\
  exists loss acc w' tr,
    toy_train_pass toy_train_stream toy_world = (Ok (loss, acc), w') /\
    trace w' = trace toy_world ++ tr /\
    List.length (criteria tr) = List.length toy_train_stream /\
    (loss == weighted_sum (criteria tr) (map batch_size toy_train_stream)
             / of_int (list_sum (map batch_size toy_train_stream)))%Q.
Proof.
  assert (H : 0 < total_samples toy_train_stream) by (vm_compute; lia).
  split; [exact H|].
  exact (proj1 (mean_loss_weighted Q Q nat nat (list Q) nat toy_forward_train
                  toy_forward_eval toy_criterion 0%Q toy_backward toy_adamw_step
                  (fun _ _ _ => 1%Q) toy_train_stream toy_world H)).
Defined.

(** C4 on the test stream of the small instance. *)
Lemma accuracy_in_unit_interval_witness :
  0 < total_samples toy_test_stream /\
  exists loss acc w',
    toy_test_pass toy_test_stream toy_world = (Ok (loss, acc), w') /\
    (0 <= acc)%Q /\ (acc <= 1)%Q.
Proof.
  assert (H : 0 < total_samples toy_test_stream) by (vm_compute; lia).
  split; [exact H|].
  destruct (proj2 (accuracy_in_unit_interval Q Q nat nat (list Q) nat toy_forward_train
                     toy_forward_eval toy_criterion 0%Q toy_backward toy_adamw_step
                     (fun _ _ _ => 1%Q) toy_test_stream toy_world H))
    as (loss & acc & w' & tr & Hrun & _ & _ & _ & H0 & H1).
  exists loss, acc, w'. repeat split; assumption.
Defined.

(** C5 on the model name "gpt". *)
Lemma unknown_names_raise_before_loading_witness :
  ~ known_model (model_name (toy_args "gpt")) /\
  exists msg w' tr,
    toy_main (toy_args "gpt") toy_world = (Raise (ValueError msg), w') /\
    trace w' = trace toy_world ++ tr /\
    count_kind KLoadData tr = 0.
Proof.
  assert (H : ~ known_model (model_name (toy_args "gpt"))).
  { intros [H | H]; discriminate H. }
  split; [exact H|].
  destruct (proj1 (unknown_names_raise_before_loading Q Q nat nat (list Q) nat
                     (fun _ _ _ => 0%Q) toy_forward_train toy_forward_eval
                     toy_criterion 0%Q toy_backward (fun _ _ _ => 0) toy_adamw_step
                     (fun _ _ _ => 1%Q) toy_load_data (toy_args "gpt") toy_world)
                  (or_introl H))
    as (msg & w' & tr & _ & Hmain & Htr & Hc).
  exists msg, w', tr. repeat split; assumption.
Defined.

Lemma toy_run_ready : run_ready (list Q) toy_load_data toy_self.
Proof. right. split; vm_compute; lia. Defined.

(** C8 on the small instance. *)
Lemma run_persists_only_plot_witness :
  run_ready (list Q) toy_load_data toy_self /\
  exists w',
    toy_run toy_world = (Ok tt, w') /\
    persisted (skipn (List.length (trace toy_world)) (trace w')) = ["image.png"].
Proof.
  split; [exact toy_run_ready|].
  destruct (run_persists_only_plot Q Q nat nat (list Q) nat toy_forward_train
              toy_forward_eval toy_criterion 0%Q toy_backward (fun _ _ _ => 0)
              toy_adamw_step (fun _ _ _ => 1%Q) toy_load_data toy_self toy_world
              toy_run_ready)
    as (w' & body & Hrun & _ & _ & _ & Hp).
  exists w'. split; assumption.
Defined.

(** C9 on the small instance: two batches, two epochs, four steps. *)
Lemma schedule_steps_match_witness :
  run_ready (list Q) toy_load_data toy_self /\
  exists w' tr,
    toy_run toy_world = (Ok tt, w') /\
    trace w' = trace toy_world ++ tr /\
    count_kind KSchedulerStep tr = 4 /\
    last_epoch (scheduler w') = 4 /\
    num_training_steps (scheduler w') = 4.
Proof.
  split; [exact toy_run_ready|].
  destruct (schedule_steps_match Q Q nat nat (list Q) nat toy_forward_train
              toy_forward_eval toy_criterion 0%Q toy_backward (fun _ _ _ => 0)
              toy_adamw_step (fun _ _ _ => 1%Q) toy_load_data toy_self toy_world
              toy_run_ready)
    as (w' & tr & Hrun & Htr & Hs & _ & _ & _ & _ & Hn & Hl).
  exists w', tr. rewrite Hl. repeat split; assumption.
Defined.

(** C10 on the small instance, between the first and the second epoch. *)
Lemma best_acc_monotone_witness :
  1 <= 2 /\
  toy_after 1 = (Ok (locals_of (toy_after 1)), snd (toy_after 1)) /\
  toy_after 2 = (Ok (locals_of (toy_after 2)), snd (toy_after 2)) /\
  (snd (best (locals_of (toy_after 1))) <= snd (best (locals_of (toy_after 2))))%Q.
Proof.
  assert (H1 : toy_after 1 = (Ok (locals_of (toy_after 1)), snd (toy_after 1)))
    by (vm_compute; reflexivity).
  assert (H2 : toy_after 2 = (Ok (locals_of (toy_after 2)), snd (toy_after 2)))
    by (vm_compute; reflexivity).
  split; [lia|]. split; [exact H1|]. split; [exact H2|].
  exact (best_acc_monotone Q Q nat nat (list Q) nat toy_forward_train toy_forward_eval
           toy_criterion 0%Q toy_backward toy_adamw_step (fun _ _ _ => 1%Q)
           (toy_args "bert") toy_train_stream toy_mixed_stream 1 2
           (mkLocals best_init [] []) _ _ toy_world _ _
           (le_S 1 1 (le_n 1)) H1 H2).
Defined.


(** ** Further instances: a split without samples, a run of no epoch *)

Definition toy_load_no_train (_ _ : string) (_ : string * bool) (_ _ : nat)
    (_ _ : string) (_ : nat) : list (list Q * Targets) * list (list Q * Targets) :=
  ([], toy_test_stream).

Definition toy_load_no_test (_ _ : string) (_ : string * bool) (_ _ : nat)
    (_ _ : string) (_ : nat) : list (list Q * Targets) * list (list Q * Targets) :=
  (toy_train_stream, []).

Definition toy_idle_self : Self :=
  mkSelf (mkArgs "bert" "fnn" 2 "sst2" "data" 2 2 0
            (1 # 100)%Q (1 # 100)%Q (1 # 100000000)%Q "cpu" 0 true "sst2.log")
         ("bert-base-uncased", false) FNN.

Abbreviation toy_run_on ld self :=
  (run Q Q nat nat (list Q) nat toy_forward_train toy_forward_eval toy_criterion
     0%Q toy_backward (fun _ _ _ => 0) toy_adamw_step (fun _ _ _ => 1%Q) ld self).

Abbreviation toy_init :=
  (__init__ Q Q nat nat (fun _ _ _ => 0%Q) 0%Q).

(** X2 on the instance whose training split is empty. *)
Lemma run_aborts_in_first_training_pass_witness :
  num_epoch (self_args toy_self) <> 0 /\
  total_samples (fst (loaders (list Q) toy_load_no_train toy_self)) = 0 /\
  exists w', toy_run_on toy_load_no_train toy_self toy_world = (Raise ZeroDivisionError, w').
Proof.
  assert (H1 : num_epoch (self_args toy_self) <> 0) by discriminate.
  assert (H2 : total_samples (fst (loaders (list Q) toy_load_no_train toy_self)) = 0)
    by reflexivity.
  split; [exact H1|]. split; [exact H2|].
  destruct (run_aborts_in_first_training_pass Q Q nat nat (list Q) nat toy_forward_train
              toy_forward_eval toy_criterion 0%Q toy_backward (fun _ _ _ => 0)
              toy_adamw_step (fun _ _ _ => 1%Q) toy_load_no_train toy_self toy_world H1 H2)
    as (w' & tr & Hrun & _).
  exists w'. exact Hrun.
Defined.

(** X3 on the instance whose test split is empty. *)
Lemma run_aborts_after_first_training_pass_witness :
  num_epoch (self_args toy_self) <> 0 /\
  0 < total_samples (fst (loaders (list Q) toy_load_no_test toy_self)) /\
  total_samples (snd (loaders (list Q) toy_load_no_test toy_self)) = 0 /\
  exists w' tr,
    toy_run_on toy_load_no_test toy_self toy_world = (Raise ZeroDivisionError, w') /\
    count_kind KOptimizerStep tr = 2.
Proof.
  assert (H1 : num_epoch (self_args toy_self) <> 0) by discriminate.
  assert (H2 : 0 < total_samples (fst (loaders (list Q) toy_load_no_test toy_self)))
    by (vm_compute; lia).
  assert (H3 : total_samples (snd (loaders (list Q) toy_load_no_test toy_self)) = 0)
    by reflexivity.
  split; [exact H1|]. split; [exact H2|]. split; [exact H3|].
  destruct (run_aborts_after_first_training_pass Q Q nat nat (list Q) nat toy_forward_train
              toy_forward_eval toy_criterion 0%Q toy_backward (fun _ _ _ => 0)
              toy_adamw_step (fun _ _ _ => 1%Q) toy_load_no_test toy_self toy_world H1 H2 H3)
    as (w' & tr & Hrun & _ & Hopt & _).
  exists w', tr. split; [exact Hrun | exact Hopt].
Defined.

(** X4 on the instance asked for no epoch. *)
Lemma run_without_epochs_witness :
  num_epoch (self_args toy_idle_self) = 0 /\
  exists w',
    toy_run_on toy_load_data toy_idle_self toy_world = (Ok tt, w') /\
    last_epoch (scheduler w') = 0.
Proof.
  assert (H0 : num_epoch (self_args toy_idle_self) = 0) by reflexivity.
  split; [exact H0|].
  destruct (run_without_epochs Q Q nat nat (list Q) nat toy_forward_train
              toy_forward_eval toy_criterion 0%Q toy_backward (fun _ _ _ => 0)
              toy_adamw_step (fun _ _ _ => 1%Q) toy_load_data toy_idle_self toy_world H0)
    as (w' & Hrun & _ & _ & _ & Hlast).
  exists w'. split; [exact Hrun | exact Hlast].
Defined.

(** X6 on the names bert and fnn. *)
Lemma init_builds_named_model_witness :
  known_model (model_name (toy_args "bert")) /\
  known_method (method_name (toy_args "bert")) /\
  exists self w',
    toy_init (toy_args "bert") toy_world = (Ok self, w') /\
    self_head self = FNN /\
    self_tokenizer self = ("bert-base-uncased", false).
Proof.
  assert (Hm : known_model (model_name (toy_args "bert"))) by (left; reflexivity).
  assert (Hh : known_method (method_name (toy_args "bert"))) by (left; reflexivity).
  split; [exact Hm|]. split; [exact Hh|].
  destruct (init_builds_named_model Q Q nat nat (fun _ _ _ => 0%Q) 0%Q
              (toy_args "bert") toy_world Hm Hh)
    as (self & w' & tr & Hinit & _ & _ & Htok & _ & Hhead & _).
  exists self, w'. split; [exact Hinit|].
  split; [apply Hhead; reflexivity | apply Htok; reflexivity].
Defined.


(** X10 on the small instance. *)
Lemma run_accuracies_in_unit_interval_witness :
  run_ready (list Q) toy_load_data toy_self /\
  exists w' best,
    toy_run toy_world = (Ok tt, w') /\ (0 <= snd best)%Q /\ (snd best <= 1)%Q /\
    In (EvLog (LogBest (fst best) (snd best))) (trace w').
Proof.
  split; [exact toy_run_ready|].
  destruct (run_accuracies_in_unit_interval Q Q nat nat (list Q) nat toy_forward_train
              toy_forward_eval toy_criterion 0%Q toy_backward (fun _ _ _ => 0)
              toy_adamw_step (fun _ _ _ => 1%Q) toy_load_data toy_self toy_world
              toy_run_ready)
    as (w' & body & best & ys & Hrun & Htr & _ & _ & H0 & H1).
  exists w', best. split; [exact Hrun|]. split; [exact H0|]. split; [exact H1|].
  rewrite Htr. apply in_or_app. right. apply in_or_app. right. left. reflexivity.
Defined.

(** X11 on the small instance. *)
Lemma logged_best_dominates_epochs_witness :
  run_ready (list Q) toy_load_data toy_self /\
  exists w' body best,
    toy_run toy_world = (Ok tt, w') /\
    forall r, In r (test_results body) -> dominated r best.
Proof.
  split; [exact toy_run_ready|].
  destruct (logged_best_dominates_epochs Q Q nat nat (list Q) nat toy_forward_train
              toy_forward_eval toy_criterion 0%Q toy_backward (fun _ _ _ => 0)
              toy_adamw_step (fun _ _ _ => 1%Q) toy_load_data toy_self toy_world
              toy_run_ready)
    as (w' & body & best & Hrun & _ & Hdom & _).
  exists w', body, best. split; [exact Hrun | exact Hdom].
Defined.

(** X12 on the small instance. *)
Lemma main_loads_once_after_construction_witness :
  toy_init (toy_args "bert") toy_world =
    (Ok toy_self, snd (toy_init (toy_args "bert") toy_world)) /\
  run_ready (list Q) toy_load_data toy_self /\
  exists w', toy_main (toy_args "bert") toy_world = (Ok tt, w').
Proof.
  assert (Hinit : toy_init (toy_args "bert") toy_world =
                  (Ok toy_self, snd (toy_init (toy_args "bert") toy_world)))
    by (vm_compute; reflexivity).
  split; [exact Hinit|]. split; [exact toy_run_ready|].
  destruct (main_loads_once_after_construction Q Q nat nat (list Q) nat (fun _ _ _ => 0%Q)
              toy_forward_train toy_forward_eval toy_criterion 0%Q toy_backward
              (fun _ _ _ => 0) toy_adamw_step (fun _ _ _ => 1%Q) toy_load_data
              (toy_args "bert") toy_world _ toy_self Hinit toy_run_ready)
    as (w' & built & ran & Hmain & _).
  exists w'. exact Hmain.
Defined.

(** X14 on the small instance: four steps, four rates. *)
Lemma run_follows_schedule_witness :
  run_ready (list Q) toy_load_data toy_self /\
  exists w' tr,
    toy_run toy_world = (Ok tt, w') /\
    trace w' = trace toy_world ++ tr /\
    List.length (step_rates tr) = 4.
Proof.
  split; [exact toy_run_ready|].
  destruct (run_follows_schedule Q Q nat nat (list Q) nat toy_forward_train
              toy_forward_eval toy_criterion 0%Q toy_backward (fun _ _ _ => 0)
              toy_adamw_step (fun _ _ _ => 1%Q) toy_load_data toy_self toy_world
              toy_run_ready)
    as (w' & tr & Hrun & Htr & Hr).
  exists w', tr. split; [exact Hrun|]. split; [exact Htr|].
  rewrite Hr, length_map, length_seq. reflexivity.
Defined.

(** X15 on two worlds that differ in everything but the parameters. *)
Lemma test_depends_on_params_only_witness :
  params Q Q (model Q Q nat nat toy_world) =
    params Q Q (model Q Q nat nat
      (mkWorld Q Q nat nat (mkModel Q Q 0%Q 1%Q false) (mkOptimizer nat 3 1%Q 1%Q)
         (mkScheduler 1%Q 7 5) 9 false [EvShow])) /\
  fst (toy_test_pass toy_test_stream toy_world) =
  fst (toy_test_pass toy_test_stream
         (mkWorld Q Q nat nat (mkModel Q Q 0%Q 1%Q false) (mkOptimizer nat 3 1%Q 1%Q)
            (mkScheduler 1%Q 7 5) 9 false [EvShow])).
Proof.
  assert (Hp : params Q Q (model Q Q nat nat toy_world) =
               params Q Q (model Q Q nat nat
                 (mkWorld Q Q nat nat (mkModel Q Q 0%Q 1%Q false) (mkOptimizer nat 3 1%Q 1%Q)
                    (mkScheduler 1%Q 7 5) 9 false [EvShow]))) by reflexivity.
  split; [exact Hp|].
  exact (proj1 (test_depends_on_params_only Q Q nat nat (list Q) nat toy_forward_train
                  toy_forward_eval toy_criterion toy_test_stream toy_world _ Hp)).
Defined.

End Instructor.
